(** * DAQ interface: the upload / configure / render pipeline of [app.py]

    A shallow embedding of [load_dataframes], [plot_data] and one run of the
    Streamlit script [main], followed by the properties of the pipeline.

    Conventions of the embedding.
    - A Python [dict] is an association list in insertion order; assigning to
      a key that is already present replaces the value where the key stands.
    - A value that Python may hold as [str] or [None] is an [option string].
    - [st.error], [st.write], [st.dataframe] and [st.plotly_chart] append to
      the page; a script is a computation that yields a result or an
      exception together with what it put on the page.
    - pandas, plotly and Streamlit are libraries outside the repository.
      The operations the script calls are modelled after their documented
      behaviour; the two decoders [pd.read_csv] and [pd.read_excel] stay
      abstract (the fields of the class [Decoders]). *)

From Stdlib Require Import String Ascii List Bool Arith ZArith Lia.
From Stdlib Require Import DecimalString DecimalNat.
Import ListNotations.
Open Scope string_scope.
Open Scope list_scope.

Notation "a +++ b" := (String.append a b)
  (at level 60, right associativity) : string_scope.

(* ------------------------------------------------------------------ *)
(** ** Python values used by the script                               *)
(* ------------------------------------------------------------------ *)

(** [str | None]. *)
Definition pyval := option string.

(** [str(v)], as an f-string formats a value. *)
Definition py_str (v : pyval) : string :=
  match v with
  | Some s => s
  | None => "None"
  end.

(** [==] on [str | None]. *)
Definition pyval_eqb (a b : pyval) : bool :=
  match a, b with
  | Some x, Some y => String.eqb x y
  | None, None => true
  | _, _ => false
  end.

(** [str(i)] for a non-negative integer. *)
Definition str_of_nat (n : nat) : string :=
  NilEmpty.string_of_uint (Nat.to_uint n).

(** [s.endswith(suffix)]. *)
Definition endswith (s suffix : string) : bool :=
  let n := String.length s in
  let m := String.length suffix in
  (m <=? n)%nat && String.eqb (substring (n - m) m s) suffix.

(** An exception: its class and [str(e)]. *)
Record exn := mkExn { exn_class : string; exn_str : string }.

Definition ValueError (msg : string) : exn := mkExn "ValueError" msg.
Definition TypeError (msg : string) : exn := mkExn "TypeError" msg.
(** The quote characters and the backslash. *)
Definition squote : ascii := ascii_of_nat 39.
Definition dquote : ascii := ascii_of_nat 34.
Definition backslash : ascii := ascii_of_nat 92.

(** [c in s]. *)
Fixpoint contains (c : ascii) (s : string) : bool :=
  match s with
  | EmptyString => false
  | String d r => Ascii.eqb d c || contains c r
  end.

(** A lowercase hexadecimal digit. *)
Definition hex_char (n : nat) : ascii :=
  nth n (list_ascii_of_string "0123456789abcdef") "0"%char.

(** One character of [repr(s)] between the quotes [quote]: the quote and
    the backslash are escaped, tab, newline and carriage return are
    written with their letter, the other control characters in
    hexadecimal, every other character as it is (the bytes above 127 are
    those of the UTF-8 form of printable characters). *)
Definition escape_char (quote c : ascii) : string :=
  let n := nat_of_ascii c in
  if Ascii.eqb c quote || Ascii.eqb c backslash then
    String backslash (String c EmptyString)
  else if (n =? 9)%nat then String backslash "t"
  else if (n =? 10)%nat then String backslash "n"
  else if (n =? 13)%nat then String backslash "r"
  else if (n <? 32)%nat || (n =? 127)%nat then
    String backslash
      (String "x" (String (hex_char (n / 16))
                     (String (hex_char (n mod 16)) EmptyString)))
  else String c EmptyString.

Fixpoint escape (quote : ascii) (s : string) : string :=
  match s with
  | EmptyString => EmptyString
  | String c r => escape_char quote c +++ escape quote r
  end.

(** [repr(s)] of a [str]: between single quotes, or between double
    quotes when [s] holds a single quote and no double quote. *)
Definition py_repr (s : string) : string :=
  let quote :=
    if contains squote s && negb (contains dquote s) then dquote else squote in
  String quote (escape quote s +++ String quote EmptyString).

(** [str(KeyError(k))] is [repr(k)]. *)
Definition KeyError (k : pyval) : exn :=
  mkExn "KeyError"
        match k with
        | Some s => py_repr s
        | None => "None"
        end.

(* ------------------------------------------------------------------ *)
(** ** Dictionaries in insertion order                                *)
(* ------------------------------------------------------------------ *)

Section Dict.
Context {V : Type}.

Definition dict := list (string * V).

Definition keys (d : dict) : list string := map fst d.
Definition values (d : dict) : list V := map snd d.

Fixpoint dict_get (d : dict) (k : string) : option V :=
  match d with
  | [] => None
  | (k', v) :: r => if String.eqb k' k then Some v else dict_get r k
  end.

(** [d[k] = v]. *)
Fixpoint dict_set (d : dict) (k : string) (v : V) : dict :=
  match d with
  | [] => [(k, v)]
  | (k', v') :: r =>
      if String.eqb k' k then (k', v) :: r else (k', v') :: dict_set r k v
  end.
End Dict.
Arguments dict V : clear implicits.

(* ------------------------------------------------------------------ *)
(** ** Tables                                                         *)
(* ------------------------------------------------------------------ *)

(** A cell of a table. *)
Inductive scalar :=
| Num (z : Z)
| Txt (s : string)
| NaN.

(** A [pd.DataFrame]: labelled columns, in order. *)
Definition DataFrame := list (string * list scalar).

(** [df.columns]. *)
Definition columns (df : DataFrame) : list string := map fst df.

(** [len(df)]. *)
Definition nrows (df : DataFrame) : nat :=
  match df with
  | [] => 0
  | (_, c) :: _ => List.length c
  end.

(** An uploaded file: its declared name and its bytes. *)
Record UploadedFile := mkFile { name : string; payload : string }.

(* ------------------------------------------------------------------ *)
(** ** Figures                                                        *)
(* ------------------------------------------------------------------ *)

(** A [go.Scatter] trace. *)
Record Trace := mkTrace {
  tr_x : list scalar;
  tr_y : list scalar;
  tr_mode : string
}.

Record Axis := mkAxis {
  axis_title : pyval;
  gridcolor : pyval;
  zerolinecolor : pyval
}.

Record Layout := mkLayout {
  title : pyval;
  xaxis : Axis;
  yaxis : Axis;
  plot_bgcolor : pyval;
  paper_bgcolor : pyval;
  font_color : pyval
}.

Record Figure := mkFigure {
  fig_data : list Trace;
  fig_layout : Layout
}.

Definition empty_axis : Axis := mkAxis None None None.
Definition empty_layout : Layout :=
  mkLayout None empty_axis empty_axis None None None.

(** [go.Figure(data=...)]: nothing of the layout is set. *)
Definition go_Figure (data : list Trace) : Figure := mkFigure data empty_layout.

(** [go.Scatter(x=..., y=..., mode=...)]. *)
Definition go_Scatter (x y : list scalar) (mode : string) : Trace :=
  mkTrace x y mode.

(* ------------------------------------------------------------------ *)
(** ** Scripts: result or exception, and what was put on the page     *)
(* ------------------------------------------------------------------ *)

Inductive ui_event :=
| EvError (msg : string)        (* st.error *)
| EvTitle (s : string)          (* st.title *)
| EvSubheader (s : string)      (* st.subheader *)
| EvWrite (s : string)          (* st.write of a text *)
| EvDataframe (df : DataFrame)  (* st.dataframe *)
| EvChart (fig : Figure)        (* st.plotly_chart *)
| EvMap (color : string).       (* st.map *)

Inductive outcome (A : Type) :=
| Ok (a : A)
| Raise (e : exn).
Arguments Ok {A} a.
Arguments Raise {A} e.

Definition Script (A : Type) : Type := outcome A * list ui_event.

Definition ret {A} (a : A) : Script A := (Ok a, []).
Definition emit (ev : ui_event) : Script unit := (Ok tt, [ev]).

Definition bind {A B} (m : Script A) (f : A -> Script B) : Script B :=
  match m with
  | (Ok a, out) => let (r, out') := f a in (r, out ++ out')
  | (Raise e, out) => (Raise e, out)
  end.

(** [try: body  except Exception as e: handler e]. *)
Definition try_except {A} (body : Script A) (handler : exn -> Script A)
  : Script A :=
  match body with
  | (Raise e, out) => let (r, out') := handler e in (r, out ++ out')
  | done => done
  end.

(** A library call that returns or raises and shows nothing. *)
Definition call {A} (r : outcome A) : Script A := (r, []).

Notation "x <- m ;; k" := (bind m (fun x => k))
  (at level 61, m at next level, right associativity).
Notation "m ;;; k" := (bind m (fun _ => k))
  (at level 61, right associativity).

(** [for x in xs: acc = body acc x]. *)
Fixpoint for_each {A S} (body : S -> A -> Script S) (xs : list A) (acc : S)
  : Script S :=
  match xs with
  | [] => ret acc
  | x :: rest => acc' <- body acc x ;; for_each body rest acc'
  end.

Definition st_error (msg : string) : Script unit := emit (EvError msg).
Definition st_write (msg : string) : Script unit := emit (EvWrite msg).

(** The diagnostics a script showed, in order. *)
Fixpoint diagnostics (out : list ui_event) : list string :=
  match out with
  | [] => []
  | EvError msg :: r => msg :: diagnostics r
  | _ :: r => diagnostics r
  end.

(* ------------------------------------------------------------------ *)
(** ** [load_dataframes]                                              *)
(* ------------------------------------------------------------------ *)

(** [pd.read_csv] and [pd.read_excel]: a table, or the exception raised. *)
Class Decoders := {
  read_csv : UploadedFile -> outcome DataFrame;
  read_excel : UploadedFile -> outcome DataFrame
}.

Section Loader.
Context {pd : Decoders}.

(** The body of the loop of [load_dataframes]. *)
Definition load_one (dataframes : dict DataFrame) (uploaded_file : UploadedFile)
  : Script (dict DataFrame) :=
  try_except
    (if endswith (name uploaded_file) ".csv" then
       df <- call (read_csv uploaded_file) ;;
       ret (dict_set dataframes (name uploaded_file) df)
     else if endswith (name uploaded_file) ".xlsx" then
       df <- call (read_excel uploaded_file) ;;
       ret (dict_set dataframes (name uploaded_file) df)
     else
       st_error ("Unsupported file type: " +++ name uploaded_file) ;;;
       ret dataframes)
    (fun e =>
       st_error ("Error loading " +++ name uploaded_file +++ ": " +++ exn_str e) ;;;
       ret dataframes).

Definition load_dataframes (uploaded_files : list UploadedFile)
  : Script (dict DataFrame) :=
  for_each load_one uploaded_files [].
End Loader.

(* ------------------------------------------------------------------ *)
(** ** [plot_data]                                                    *)
(* ------------------------------------------------------------------ *)

(** [d[k]] on a dict or a table: the value, or [KeyError]. *)
Definition getitem {V} (d : dict V) (k : pyval) : outcome V :=
  match k with
  | Some key =>
      match dict_get d key with
      | Some v => Ok v
      | None => Raise (KeyError k)
      end
  | None => Raise (KeyError None)
  end.

(** [fig.update_layout(title=..., xaxis_title=..., yaxis_title=...,
    plot_bgcolor=..., paper_bgcolor=..., font_color=..., xaxis=dict(...),
    yaxis=dict(...))], the one call of the script: the axis dicts are merged
    into the axes, so the axis titles set by the same call stay. *)
Definition update_layout (fig : Figure)
    (title_ xaxis_title yaxis_title plot_bgcolor_ paper_bgcolor_ font_color_ : pyval)
    (xaxis_ yaxis_ : pyval * pyval) : Figure :=
  mkFigure (fig_data fig)
    {| title := title_;
       xaxis := {| axis_title := xaxis_title;
                   gridcolor := fst xaxis_;
                   zerolinecolor := snd xaxis_ |};
       yaxis := {| axis_title := yaxis_title;
                   gridcolor := fst yaxis_;
                   zerolinecolor := snd yaxis_ |};
       plot_bgcolor := plot_bgcolor_;
       paper_bgcolor := paper_bgcolor_;
       font_color := font_color_ |}.

Definition plot_data (data : DataFrame) (x_axis y_axis : pyval)
    (plot_title : string) (plot_type : pyval) : Script Figure :=
  let styled (fig : Figure) : Script Figure :=
    ret (update_layout fig
           (Some plot_title) x_axis y_axis
           (Some "#111111") (Some "#111111") (Some "#FFFFFF")
           (Some "#4a4a4a", Some "#4a4a4a")
           (Some "#4a4a4a", Some "#4a4a4a")) in
  if pyval_eqb plot_type (Some "Line Plot") then
    x <- call (getitem data x_axis) ;;
    y <- call (getitem data y_axis) ;;
    styled (go_Figure [go_Scatter x y "lines"])
  else if pyval_eqb plot_type (Some "Scatter Plot") then
    x <- call (getitem data x_axis) ;;
    y <- call (getitem data y_axis) ;;
    styled (go_Figure [go_Scatter x y "markers"])
  else
    st_error ("Unsupported plot type: " +++ py_str plot_type) ;;;
    ret (go_Figure []).

(* ------------------------------------------------------------------ *)
(** ** [pd.concat] and Streamlit's widgets                            *)
(* ------------------------------------------------------------------ *)

(** Labels not seen yet are appended, in order. *)
Fixpoint unique_labels (seen labels : list string) : list string :=
  match labels with
  | [] => seen
  | l :: r =>
      if existsb (String.eqb l) seen then unique_labels seen r
      else unique_labels (seen ++ [l]) r
  end.

(** The column index of a concatenation (outer join, unsorted): every label
    of every table, each once, in the order first met. *)
Definition union_indexes (indexes : list (list string)) : list string :=
  fold_left unique_labels indexes [].

Definition column_or_nan (df : DataFrame) (label : string) : list scalar :=
  match dict_get df label with
  | Some c => c
  | None => repeat NaN (nrows df)
  end.

(** [pd.concat(objs, ignore_index=True)] on tables. *)
Definition pd_concat (objs : list DataFrame) : outcome DataFrame :=
  match objs with
  | [] => Raise (ValueError "No objects to concatenate")
  | _ :: _ =>
      Ok (map (fun label =>
                 (label, flat_map (fun df => column_or_nan df label) objs))
              (union_indexes (map columns objs)))
  end.

(** What the browser holds when the script runs: for each select box (by
    key, or by label when it has no key) the position the user picked, if
    any, and whether the button was pressed. *)
Record Widgets := mkWidgets {
  picked : string -> option nat;
  clicked : string -> bool
}.

(** [st.selectbox(label, options, index=index)]: the option picked, the
    option at [index] when nothing valid is picked, [None] without options. *)
Definition selectbox {A} (options : list A) (index : nat) (choice : option nat)
  : option A :=
  match choice with
  | Some k =>
      match nth_error options k with
      | Some v => Some v
      | None => nth_error options index
      end
  | None => nth_error options index
  end.

(** [range(n)]. *)
Definition py_range (n : option nat) : outcome (list nat) :=
  match n with
  | Some n => Ok (seq 0 n)
  | None => Raise (TypeError "'NoneType' object cannot be interpreted as an integer")
  end.

(* ------------------------------------------------------------------ *)
(** ** [main]: one run of the script                                  *)
(* ------------------------------------------------------------------ *)

(** An entry of [plot_configs]. *)
Record PlotConfig := mkConfig {
  cfg_file_name : pyval;
  cfg_x_axis : pyval;
  cfg_y_axis : pyval;
  cfg_plot_type : pyval;
  cfg_df : DataFrame;
  cfg_title : string
}.

Section Main.
Context {pd : Decoders}.
Variable ui : Widgets.

(** The preview loop. *)
Definition preview (_ : unit) (item : string * DataFrame) : Script unit :=
  st_write (fst item) ;;;
  emit (EvDataframe (snd item)).

(** The body of the loop that fills [plot_configs]. *)
Definition configure_slot (dataframes : dict DataFrame)
    (plot_configs : list PlotConfig) (i : nat) : Script (list PlotConfig) :=
  emit (EvSubheader ("Plot " +++ str_of_nat (i + 1))) ;;;
  let file_name_key := "file_name_" +++ str_of_nat i in
  let x_axis_key := "x_axis_" +++ str_of_nat i in
  let y_axis_key := "y_axis_" +++ str_of_nat i in
  let plot_type_key := "plot_type_" +++ str_of_nat i in
  let file_name := selectbox (keys dataframes) 0 (picked ui file_name_key) in
  df <- call (getitem dataframes file_name) ;;
  let x_axis := selectbox (columns df) 0 (picked ui x_axis_key) in
  let y_axis := selectbox (columns df) 0 (picked ui y_axis_key) in
  let plot_type :=
    selectbox ["Line Plot"; "Scatter Plot"] 0 (picked ui plot_type_key) in
  ret (plot_configs ++
       [ {| cfg_file_name := file_name;
            cfg_x_axis := x_axis;
            cfg_y_axis := y_axis;
            cfg_plot_type := plot_type;
            cfg_df := df;
            cfg_title :=
              py_str file_name +++ " - " +++ py_str y_axis +++ " vs "
                +++ py_str x_axis |} ]).

(** The body of the loop that draws the plots. *)
Definition render_slot (_ : unit) (config : PlotConfig) : Script unit :=
  fig <- plot_data (cfg_df config) (cfg_x_axis config) (cfg_y_axis config)
           (cfg_title config) (cfg_plot_type config) ;;
  emit (EvChart fig).

(** The script from the plot-count select box on; [available_columns] is
    in scope as in the source. *)
Definition configure_and_render (available_columns : list string)
    (dataframes : dict DataFrame) : Script unit :=
  let num_plots := selectbox [1; 2; 3; 4] 1 (picked ui "Number of Plots") in
  st_write "File uploaded successfully!" ;;;
  st_write "Preview of the data:" ;;;
  for_each preview dataframes tt ;;;
  slots <- call (py_range num_plots) ;;
  plot_configs <- for_each (configure_slot dataframes) slots [] ;;
  let show_plots := clicked ui "Generate Plots" in
  if show_plots then for_each render_slot plot_configs tt
  else ret tt.

(** The page configuration and the sidebar's fixed texts are not
    recorded; neither is the grid column an element is put in. *)
Definition main (uploaded_files : list UploadedFile) : Script unit :=
  emit (EvTitle "NFR 25 DAQ Interface") ;;;
  st_write "Northwestern Formula Racing's DAQ data analysis tool. Upload your data using the sidebar." ;;;
  match uploaded_files with
  | _ :: _ =>
      dataframes <- load_dataframes uploaded_files ;;
      combined_data <- call (pd_concat (values dataframes)) ;;
      let available_columns := columns combined_data in
      configure_and_render available_columns dataframes
  | [] =>
      st_write "Please upload a file to get started." ;;;
      emit (EvTitle "Welcome to Northwestern Formula Racing") ;;;
      emit (EvMap "#4E2A84")
  end.
End Main.

(* ------------------------------------------------------------------ *)
(** ** [real-time.py]: the plot that is redrawn every second          *)
(* ------------------------------------------------------------------ *)

(** [l[-n:]] for a positive [n]: the last [n] elements, all of them when
    there are fewer. *)
Definition last_n {A} (n : nat) (l : list A) : list A :=
  skipn (List.length l - n) l.

(** [try: body  except cls: handler]: exceptions of another class
    escape. *)
Definition try_except_only {A} (cls : string) (body handler : Script A)
  : Script A :=
  match body with
  | (Raise e, out) =>
      if String.eqb (exn_class e) cls then
        let (r, out') := handler in (r, out ++ out')
      else (Raise e, out)
  | done => done
  end.

(** A matplotlib [Axes]: the lines drawn on it and its three texts. *)
Record Axes := mkAxes {
  ax_lines : list (list scalar * list scalar);
  ax_xlabel : string;
  ax_ylabel : string;
  ax_title : string
}.

(** A new [Axes], and [ax.clear()]. *)
Definition new_axes : Axes := mkAxes [] "" "" "".
Definition ax_clear (ax : Axes) : Axes := new_axes.

(** [ax.plot(x, y)]: one more line; sequences of different lengths are
    refused. *)
Definition ax_plot (ax : Axes) (x y : list scalar) : outcome Axes :=
  if (List.length x =? List.length y)%nat then
    Ok (mkAxes (ax_lines ax ++ [(x, y)]) (ax_xlabel ax) (ax_ylabel ax) (ax_title ax))
  else
    Raise (ValueError
             ("x and y must have same first dimension, but have shapes ("
                +++ str_of_nat (List.length x) +++ ",) and ("
                +++ str_of_nat (List.length y) +++ ",)")).

Definition set_xlabel (ax : Axes) (s : string) : Axes :=
  mkAxes (ax_lines ax) s (ax_ylabel ax) (ax_title ax).
Definition set_ylabel (ax : Axes) (s : string) : Axes :=
  mkAxes (ax_lines ax) (ax_xlabel ax) s (ax_title ax).
Definition set_title (ax : Axes) (s : string) : Axes :=
  mkAxes (ax_lines ax) (ax_xlabel ax) (ax_ylabel ax) s.

(** The two lists and the axes that [App] creates and every call of
    [update_plot] mutates. *)
Record PlotState := mkPlotState {
  x_data : list scalar;
  y_data : list scalar;
  ax : Axes
}.

(** The state [App.__init__] starts from. *)
Definition App_init : PlotState := mkPlotState [] [] new_axes.

Section RealTime.
(** [pd.read_csv(path)] on the disk as it is when the call is made. *)
Variable read_csv_path : string -> outcome DataFrame.

Definition read_new_data : Script (list scalar * list scalar) :=
  try_except_only "FileNotFoundError"
    (df <- call (read_csv_path "your_data.csv") ;;
     timestamp <- call (getitem df (Some "timestamp")) ;;
     value <- call (getitem df (Some "value")) ;;
     ret (last_n 10 timestamp, last_n 10 value))
    (ret ([], [])).

(** [update_plot(i, x_data, y_data, ax)]: the outcome and the state it
    leaves; an exception leaves what was mutated before it. *)
Definition update_plot (i : nat) (st : PlotState) : outcome unit * PlotState :=
  match fst read_new_data with
  | Raise e => (Raise e, st)
  | Ok (x, y) =>
      let x_data := x_data st ++ x in
      let y_data := y_data st ++ y in
      let ax := ax_clear (ax st) in
      match ax_plot ax x_data y_data with
      | Raise e => (Raise e, mkPlotState x_data y_data ax)
      | Ok ax =>
          let ax := set_xlabel ax "Timestamp" in
          let ax := set_ylabel ax "Value" in
          let ax := set_title ax "Real-time Data Plot" in
          (Ok tt, mkPlotState x_data y_data ax)
      end
  end.
End RealTime.

(** Successive frames of the animation, frame [i] on the disk as it is
    then, up to the first frame that raises. *)
Fixpoint frames (disks : list (string -> outcome DataFrame)) (i : nat)
    (st : PlotState) : outcome unit * PlotState :=
  match disks with
  | [] => (Ok tt, st)
  | disk :: rest =>
      match update_plot disk i st with
      | (Ok _, st') => frames rest (S i) st'
      | (Raise e, st') => (Raise e, st')
      end
  end.

(* ------------------------------------------------------------------ *)
(** ** Notions used to state the properties                           *)
(* ------------------------------------------------------------------ *)

Section LoaderNotions.
Context {pd : Decoders}.

(** The extension of the file is one of the two the loader decodes. *)
Definition recognized (f : UploadedFile) : bool :=
  endswith (name f) ".csv" || endswith (name f) ".xlsx".

(** The table of a file with a recognized extension whose content
    decodes; [None] for every other file. *)
Definition loads (f : UploadedFile) : option DataFrame :=
  if endswith (name f) ".csv" then
    match read_csv f with Ok df => Some df | Raise _ => None end
  else if endswith (name f) ".xlsx" then
    match read_excel f with Ok df => Some df | Raise _ => None end
  else None.

Definition fails (f : UploadedFile) : bool :=
  match loads f with Some _ => false | None => true end.

(** The files that load, in upload order. *)
Definition loaded (files : list UploadedFile) : list UploadedFile :=
  filter (fun f => negb (fails f)) files.

(** The entry a file adds to the mapping. *)
Definition entry (f : UploadedFile) : list (string * DataFrame) :=
  match loads f with Some df => [(name f, df)] | None => [] end.

(** The tables decoded from the files called [nm], in upload order. *)
Definition loaded_as (nm : string) (files : list UploadedFile)
  : list DataFrame :=
  flat_map (fun f => if String.eqb (name f) nm then map snd (entry f) else [])
           files.

(** The diagnostic a file causes, if any. *)
Definition failure (f : UploadedFile) : list string :=
  if endswith (name f) ".csv" then
    match read_csv f with
    | Ok _ => []
    | Raise e => ["Error loading " +++ name f +++ ": " +++ exn_str e]
    end
  else if endswith (name f) ".xlsx" then
    match read_excel f with
    | Ok _ => []
    | Raise e => ["Error loading " +++ name f +++ ": " +++ exn_str e]
    end
  else ["Unsupported file type: " +++ name f].

(** The mapping after one more file. *)
Definition load_step (dataframes : dict DataFrame) (f : UploadedFile)
  : dict DataFrame :=
  match loads f with
  | Some df => dict_set dataframes (name f) df
  | None => dataframes
  end.
End LoaderNotions.

(** A diagnostic of the loader that names the file [f]. *)
Definition attributed (msg : string) (f : UploadedFile) : Prop :=
  msg = "Unsupported file type: " +++ name f \/
  exists cause, msg = "Error loading " +++ name f +++ ": " +++ cause.

(** A list of labels with duplicates collapsed, in first-seen order: the
    head, then what the rest yields without the head. *)
Fixpoint first_seen (labels : list string) : list string :=
  match labels with
  | [] => []
  | l :: r => l :: filter (fun y => negb (String.eqb y l)) (first_seen r)
  end.

(** The label [l] is not among [seen]. *)
Definition unseen (seen : list string) (l : string) : bool :=
  negb (existsb (String.eqb l) seen).

(** The value of a hexadecimal digit. *)
Definition hex_digit (c : ascii) : option nat :=
  let n := nat_of_ascii c in
  if (48 <=? n)%nat && (n <=? 57)%nat then Some (n - 48)
  else if (65 <=? n)%nat && (n <=? 70)%nat then Some (n - 55)
  else if (97 <=? n)%nat && (n <=? 102)%nat then Some (n - 87)
  else None.

(** The sum of the red, green and blue channels of a colour "#rrggbb":
    0 for black, 765 for white. *)
Definition brightness (color : string) : option nat :=
  match color with
  | String "#" (String r1 (String r0 (String g1 (String g0
      (String b1 (String b0 EmptyString)))))) =>
      match hex_digit r1, hex_digit r0, hex_digit g1, hex_digit g0,
            hex_digit b1, hex_digit b0 with
      | Some r1, Some r0, Some g1, Some g0, Some b1, Some b0 =>
          Some (16 * r1 + r0 + (16 * g1 + g0) + (16 * b1 + b0))
      | _, _, _, _, _, _ => None
      end
  | _ => None
  end.

(** Colour [a] is set and darker than colour [b]. *)
Definition darker (a b : pyval) : Prop :=
  exists ca cb na nb,
    a = Some ca /\ b = Some cb /\
    brightness ca = Some na /\ brightness cb = Some nb /\ na < nb.

(** The theme of the figures: the plot area and the canvas around it
    are near black, the text is white, and the grid and zero lines are a
    grey between the two. *)
Definition dark_theme (l : Layout) : Prop :=
  plot_bgcolor l = Some "#111111" /\
  paper_bgcolor l = Some "#111111" /\
  font_color l = Some "#FFFFFF" /\
  gridcolor (xaxis l) = Some "#4a4a4a" /\
  zerolinecolor (xaxis l) = Some "#4a4a4a" /\
  gridcolor (yaxis l) = Some "#4a4a4a" /\
  zerolinecolor (yaxis l) = Some "#4a4a4a" /\
  darker (plot_bgcolor l) (gridcolor (xaxis l)) /\
  darker (paper_bgcolor l) (gridcolor (yaxis l)) /\
  darker (gridcolor (xaxis l)) (font_color l) /\
  darker (gridcolor (yaxis l)) (font_color l).

(** Both columns of a plot configuration are columns of its table. *)
Definition columns_exist (c : PlotConfig) : Prop :=
  exists x y,
    cfg_x_axis c = Some x /\ cfg_y_axis c = Some y /\
    In x (columns (cfg_df c)) /\ In y (columns (cfg_df c)).

(** The title derived from the source and the two columns. *)
Definition derived_title (file_name x_axis y_axis : pyval) : string :=
  py_str file_name +++ " - " +++ py_str y_axis +++ " vs " +++ py_str x_axis.

(** What the configuration loop guarantees of an entry of [plot_configs]:
    its table is the one the mapping holds under its source, its mode is
    one of the two of the select box, each column is a column of the table
    ([None] when the table has no column), and its title is derived. *)
Definition configured (dataframes : dict DataFrame) (c : PlotConfig) : Prop :=
  (exists nm, cfg_file_name c = Some nm /\
              dict_get dataframes nm = Some (cfg_df c)) /\
  (cfg_plot_type c = Some "Line Plot" \/ cfg_plot_type c = Some "Scatter Plot") /\
  (columns (cfg_df c) <> [] -> columns_exist c) /\
  (columns (cfg_df c) = [] -> cfg_x_axis c = None /\ cfg_y_axis c = None) /\
  cfg_title c = derived_title (cfg_file_name c) (cfg_x_axis c) (cfg_y_axis c).

(** [fig] is the plot of the columns [x] and [y] of the table loaded
    under the name [nm], in the mode [mode]. *)
Definition chart_of (dataframes : dict DataFrame) (fig : Figure)
    (nm x y mode : string) : Prop :=
  exists df xs ys,
    dict_get dataframes nm = Some df /\
    dict_get df x = Some xs /\ dict_get df y = Some ys /\
    (mode = "lines" \/ mode = "markers") /\
    fig_data fig = [mkTrace xs ys mode] /\
    title (fig_layout fig) = Some (nm +++ " - " +++ y +++ " vs " +++ x) /\
    axis_title (xaxis (fig_layout fig)) = Some x /\
    axis_title (yaxis (fig_layout fig)) = Some y /\
    dark_theme (fig_layout fig).

(** An element of the page that is not a chart, or is the chart of some
    loaded table. *)
Definition sound_event (dataframes : dict DataFrame) (ev : ui_event) : Prop :=
  match ev with
  | EvChart fig => exists nm x y mode, chart_of dataframes fig nm x y mode
  | _ => True
  end.

(** The last element of a list. *)
Definition last_error {A} (l : list A) : option A := hd_error (rev l).

(* ------------------------------------------------------------------ *)
(** ** A sample session                                               *)
(* ------------------------------------------------------------------ *)

(** Two logs of five rows each, and a sheet without cells. *)
Definition sample_a : DataFrame :=
  [("t", [Num 0; Num 1; Num 2; Num 3; Num 4]);
   ("v1", [Num 12; Num 15; Num 11; Num 18; Num 16])].

Definition sample_b : DataFrame :=
  [("t", [Num 0; Num 1; Num 2; Num 3; Num 4]);
   ("v2", [Num 7; Num 5; Num 9; Num 4; Num 8])].

Definition empty_sheet : DataFrame := [].

(** What the decoders return on the contents used below: a CSV text
    decodes to its table, a file without content has no header to parse,
    and a workbook whose sheet is empty decodes to a table without
    columns. *)
Definition sample_read_csv (f : UploadedFile) : outcome DataFrame :=
  if String.eqb (payload f) "log a" then Ok sample_a
  else if String.eqb (payload f) "log b" then Ok sample_b
  else if String.eqb (payload f) "" then
    Raise (mkExn "EmptyDataError" "No columns to parse from file")
  else Raise (mkExn "ParserError" "Error tokenizing data").

Definition sample_read_excel (f : UploadedFile) : outcome DataFrame :=
  if String.eqb (payload f) "empty sheet" then Ok empty_sheet
  else if String.eqb (payload f) "log b" then Ok sample_b
  else Raise (mkExn "BadZipFile" "File is not a zip file").

Definition sample_decoders : Decoders :=
  {| read_csv := sample_read_csv; read_excel := sample_read_excel |}.

(** Nothing picked; the button pressed or not. *)
Definition untouched (pressed : bool) : Widgets :=
  mkWidgets (fun _ => None) (fun _ => pressed).

(** Two slots: the first on the first file, its second column against its
    first, as a line; the second on the second file, its second column
    against its first, as markers; the button pressed. *)
Definition two_plots : Widgets :=
  mkWidgets
    (fun key =>
       if String.eqb key "file_name_1" then Some 1
       else if String.eqb key "y_axis_0" then Some 1
       else if String.eqb key "y_axis_1" then Some 1
       else if String.eqb key "plot_type_1" then Some 1
       else None)
    (fun _ => true).

Definition a_csv : UploadedFile := mkFile "a.csv" "log a".
Definition b_csv : UploadedFile := mkFile "b.csv" "log b".
Definition b_again : UploadedFile := mkFile "a.csv" "log b".
Definition blank_csv : UploadedFile := mkFile "blank.csv" "".
Definition upper_csv : UploadedFile := mkFile "DATA.CSV" "log a".
Definition empty_xlsx : UploadedFile := mkFile "empty.xlsx" "empty sheet".

(* ------------------------------------------------------------------ *)
(** ** What a page holds                                              *)
(* ------------------------------------------------------------------ *)

(** The figures of the charts of a page, in order. *)
Definition charts (page : list ui_event) : list Figure :=
  flat_map (fun ev => match ev with EvChart fig => [fig] | _ => [] end) page.

(** The tables a page previews, in order. *)
Definition previews (page : list ui_event) : list DataFrame :=
  flat_map (fun ev => match ev with EvDataframe df => [df] | _ => [] end) page.

(** The subheaders of a page, in order. *)
Definition subheaders (page : list ui_event) : list string :=
  flat_map (fun ev => match ev with EvSubheader s => [s] | _ => [] end) page.

(** The widgets after the user picks position [k] in the select box
    [key]. *)
Definition pick (ui : Widgets) (key : string) (k : nat) : Widgets :=
  mkWidgets (fun key' => if String.eqb key' key then Some k else picked ui key')
            (clicked ui).

(** The prefixes of the keys of the four select boxes of a slot. *)
Definition slot_key_prefixes : list string :=
  ["file_name_"; "x_axis_"; "y_axis_"; "plot_type_"].

(** The number of plots a run works with. *)
Definition num_plots_of (ui : Widgets) : option nat :=
  selectbox [1; 2; 3; 4] 1 (picked ui "Number of Plots").

(** The subheader of slot [i]. *)
Definition slot_subheader (i : nat) : ui_event :=
  EvSubheader ("Plot " +++ str_of_nat (i + 1)).

(** The names and tables of the preview, as the page shows them. *)
Definition preview_of (dataframes : dict DataFrame) : list ui_event :=
  flat_map (fun item => [EvWrite (fst item); EvDataframe (snd item)]) dataframes.

(** The entry [c] is the one slot [i] builds: every field is read from
    the select boxes keyed with [i], the table is the one of the chosen
    source, and the columns are chosen among the columns of that table. *)
Definition slot_entry (ui : Widgets) (dataframes : dict DataFrame) (i : nat)
    (c : PlotConfig) : Prop :=
  cfg_file_name c =
    selectbox (keys dataframes) 0 (picked ui ("file_name_" +++ str_of_nat i)) /\
  getitem dataframes (cfg_file_name c) = Ok (cfg_df c) /\
  cfg_x_axis c =
    selectbox (columns (cfg_df c)) 0 (picked ui ("x_axis_" +++ str_of_nat i)) /\
  cfg_y_axis c =
    selectbox (columns (cfg_df c)) 0 (picked ui ("y_axis_" +++ str_of_nat i)) /\
  cfg_plot_type c =
    selectbox ["Line Plot"; "Scatter Plot"] 0
      (picked ui ("plot_type_" +++ str_of_nat i)) /\
  cfg_title c =
    derived_title (cfg_file_name c) (cfg_x_axis c) (cfg_y_axis c).

(** The entry of a slot nobody touched, on a mapping whose first entry
    is the table [df] under the name [nm]. *)
Definition default_entry (nm : string) (df : DataFrame) : PlotConfig :=
  let first_column := hd_error (columns df) in
  mkConfig (Some nm) first_column first_column (Some "Line Plot") df
           (derived_title (Some nm) first_column first_column).

(** The widgets with the button released. *)
Definition released (ui : Widgets) : Widgets :=
  mkWidgets (picked ui) (fun _ => false).

(** What the script shows before it looks at the uploaded files. *)
Definition page_head : list ui_event :=
  [EvTitle "NFR 25 DAQ Interface";
   EvWrite "Northwestern Formula Racing's DAQ data analysis tool. Upload your data using the sidebar."].

(** What the script shows between the loader and the preview. *)
Definition preview_head : list ui_event :=
  [EvWrite "File uploaded successfully!"; EvWrite "Preview of the data:"].

(** What the last part of a run yields for the entries [plot_configs]:
    the drawing loop when the button is pressed, nothing otherwise. *)
Definition drawing (ui : Widgets) (plot_configs : list PlotConfig)
  : Script unit :=
  if clicked ui "Generate Plots" then for_each render_slot plot_configs tt
  else (Ok tt, []).

(** The axes after a frame is drawn: the one line of the two lists and
    the three fixed texts. *)
Definition drawn_axes (x y : list scalar) : Axes :=
  mkAxes [(x, y)] "Timestamp" "Value" "Real-time Data Plot".

(** The disk holds, under the name the script reads, a table with the
    columns [ts] and [vs] of equal length. *)
Definition holds_log (disk : string -> outcome DataFrame)
    (ts vs : list scalar) : Prop :=
  exists df,
    disk "your_data.csv" = Ok df /\
    dict_get df "timestamp" = Some ts /\ dict_get df "value" = Some vs /\
    List.length ts = List.length vs.

(** The disk holds no file under the name the script reads. *)
Definition no_log (disk : string -> outcome DataFrame) : Prop :=
  exists e, disk "your_data.csv" = Raise e /\
            exn_class e = "FileNotFoundError".

(** A log of twelve rows, the disk that holds it, and an empty disk. *)
Definition sample_log : DataFrame :=
  [("timestamp", map (fun n => Num (Z.of_nat n)) (seq 1 12));
   ("value", map (fun n => Num (Z.of_nat (n * n))) (seq 1 12))].

Definition disk_with_log (path : string) : outcome DataFrame :=
  if String.eqb path "your_data.csv" then Ok sample_log
  else Raise (mkExn "FileNotFoundError" "No such file or directory").

Definition empty_disk (path : string) : outcome DataFrame :=
  Raise (mkExn "FileNotFoundError" "No such file or directory").

Definition locked_disk (path : string) : outcome DataFrame :=
  Raise (mkExn "PermissionError" "Permission denied").

Definition disk_with_other_log (path : string) : outcome DataFrame :=
  if String.eqb path "your_data.csv" then Ok sample_a
  else Raise (mkExn "FileNotFoundError" "No such file or directory").

(* ================================================================== *)
(** * Properties                                                      *)
(* ================================================================== *)

(* ------------------------------------------------------------------ *)
(** ** Strings: [endswith] is the suffix relation                     *)
(* ------------------------------------------------------------------ *)

Lemma length_append (a b : string) :
  String.length (a +++ b) = String.length a + String.length b.
Proof. induction a as [|c a IH]; simpl; [reflexivity | now rewrite IH]. Qed.

Lemma substring_all (s : string) : substring 0 (String.length s) s = s.
Proof. induction s as [|c s IH]; simpl; [reflexivity | now rewrite IH]. Qed.

Lemma substring_skip_prefix (p s : string) :
  substring (String.length p) (String.length s) (p +++ s) = s.
Proof. induction p as [|c p IH]; simpl; [apply substring_all | exact IH]. Qed.

Lemma substring_split (s : string) (k : nat) :
  k <= String.length s ->
  s = substring 0 k s +++ substring k (String.length s - k) s.
Proof.
  revert k; induction s as [|c s IH]; intros k Hk; simpl in *.
  - destruct k; [reflexivity | lia].
  - destruct k as [|k]; simpl.
    + now rewrite substring_all.
    + f_equal. apply IH. lia.
Qed.

Lemma endswith_spec (s suffix : string) :
  endswith s suffix = true <-> exists stem, s = stem +++ suffix.
Proof.
  unfold endswith; split.
  - intros H. apply andb_true_iff in H as [Hle Heq].
    apply Nat.leb_le in Hle. apply String.eqb_eq in Heq.
    exists (substring 0 (String.length s - String.length suffix) s).
    pose proof (substring_split s (String.length s - String.length suffix)
                  ltac:(lia)) as Hs.
    replace (String.length s - (String.length s - String.length suffix))
      with (String.length suffix) in Hs by lia.
    now rewrite Heq in Hs.
  - intros [stem ->]. rewrite length_append.
    apply andb_true_iff; split; [apply Nat.leb_le; lia|].
    replace (String.length stem + String.length suffix - String.length suffix)
      with (String.length stem) by lia.
    rewrite substring_skip_prefix. apply String.eqb_refl.
Qed.

Example endswith_examples :
  endswith "run_3.csv" ".csv" = true /\
  endswith "laps.xlsx" ".xlsx" = true /\
  endswith ".csv" ".csv" = true /\
  endswith "csv" ".csv" = false /\
  endswith "run_3.csv.bak" ".csv" = false /\
  endswith "RUN_3.CSV" ".csv" = false /\
  endswith "laps.xls" ".xlsx" = false.
Proof. repeat split. Qed.

(* ------------------------------------------------------------------ *)
(** ** Dictionaries                                                   *)
(* ------------------------------------------------------------------ *)

Section DictFacts.
Context {V : Type}.
Implicit Types (d : dict V) (k : string) (v : V).

Lemma dict_get_set d k v k' :
  dict_get (dict_set d k v) k' =
  if String.eqb k k' then Some v else dict_get d k'.
Proof.
  induction d as [|[k0 v0] d IH]; simpl.
  - reflexivity.
  - destruct (String.eqb_spec k0 k) as [->|Hne]; simpl.
    + destruct (String.eqb k k'); reflexivity.
    + rewrite IH. destruct (String.eqb_spec k0 k') as [->|Hne'].
      * destruct (String.eqb_spec k k'); [congruence | reflexivity].
      * reflexivity.
Qed.

Lemma dict_get_None d k : dict_get d k = None <-> ~ In k (keys d).
Proof.
  induction d as [|[k0 v0] d IH]; simpl.
  - tauto.
  - destruct (String.eqb_spec k0 k) as [->|Hne].
    + split; [discriminate | intros H; exfalso; apply H; now left].
    + rewrite IH. split; [intros H [E|I]; tauto | tauto].
Qed.

Lemma dict_get_In d k v : dict_get d k = Some v -> In (k, v) d.
Proof.
  induction d as [|[k0 v0] d IH]; simpl; [discriminate|].
  destruct (String.eqb_spec k0 k) as [->|Hne].
  - intros [= ->]. now left.
  - intros H. right. now apply IH.
Qed.

Lemma dict_set_fresh d k v :
  ~ In k (keys d) -> dict_set d k v = d ++ [(k, v)].
Proof.
  induction d as [|[k0 v0] d IH]; simpl; intros H.
  - reflexivity.
  - destruct (String.eqb_spec k0 k) as [->|Hne]; [tauto|].
    rewrite IH; [reflexivity | tauto].
Qed.

Lemma keys_dict_set d k v :
  keys (dict_set d k v) = if existsb (String.eqb k) (keys d) then keys d
                          else keys d ++ [k].
Proof.
  induction d as [|[k0 v0] d IH]; simpl.
  - reflexivity.
  - rewrite (String.eqb_sym k k0).
    destruct (String.eqb_spec k0 k) as [->|Hne]; simpl.
    + reflexivity.
    + rewrite IH. now destruct (existsb (String.eqb k) (keys d)).
Qed.

Example dict_set_examples :
  dict_set [("a.csv", 1); ("b.csv", 2)] "a.csv" 3 = [("a.csv", 3); ("b.csv", 2)] /\
  dict_set [("a.csv", 1); ("b.csv", 2)] "c.csv" 3 =
    [("a.csv", 1); ("b.csv", 2); ("c.csv", 3)].
Proof. split; reflexivity. Qed.
End DictFacts.

(* ------------------------------------------------------------------ *)
(** ** Scripts                                                        *)
(* ------------------------------------------------------------------ *)

Lemma bind_inv {A B} (m : Script A) (f : A -> Script B) r out :
  bind m f = (r, out) ->
  (exists e, m = (Raise e, out) /\ r = Raise e) \/
  (exists a out1 out2, m = (Ok a, out1) /\ f a = (r, out2) /\ out = out1 ++ out2).
Proof.
  unfold bind. destruct m as [[a|e] out1].
  - destruct (f a) as [r2 out2] eqn:E. intros [= <- <-].
    right. now exists a, out1, out2.
  - intros [= <- <-]. left. now exists e.
Qed.

Lemma bind_ok {A B} (m : Script A) (f : A -> Script B) a out1 :
  m = (Ok a, out1) -> bind m f = (fst (f a), out1 ++ snd (f a)).
Proof. intros ->. unfold bind. now destruct (f a). Qed.

(** What a loop shows is what its bodies show. *)
Lemma for_each_shows {A S} (P : ui_event -> Prop) (body : S -> A -> Script S)
    (xs : list A) :
  (forall acc x, In x xs -> Forall P (snd (body acc x))) ->
  forall acc, Forall P (snd (for_each body xs acc)).
Proof.
  induction xs as [|x xs IH]; intros Hbody acc; simpl.
  - constructor.
  - pose proof (Hbody acc x (or_introl eq_refl)) as Hx.
    unfold bind. destruct (body acc x) as [[acc'|e] out1]; simpl in *.
    + specialize (IH (fun a y Hy => Hbody a y (or_intror Hy)) acc').
      destruct (for_each body xs acc') as [r2 out2]; simpl in *.
      apply Forall_app; now split.
    + exact Hx.
Qed.

(** An invariant of the accumulator of a loop that ends normally. *)
Lemma for_each_invariant {A S} (I : S -> Prop) (body : S -> A -> Script S)
    (xs : list A) :
  (forall acc x acc' out, In x xs -> I acc -> body acc x = (Ok acc', out) -> I acc') ->
  forall acc res out, I acc -> for_each body xs acc = (Ok res, out) -> I res.
Proof.
  induction xs as [|x xs IH]; intros Hbody acc res out Hacc; simpl.
  - unfold ret. now intros [= <- _].
  - intros H. apply bind_inv in H as [[e [_ He]]|[acc' [o1 [o2 [H1 [H2 _]]]]]].
    + discriminate.
    + eapply IH; [ | | exact H2].
      * intros a y a' o Hy. apply Hbody. now right.
      * eapply Hbody; [now left | exact Hacc | exact H1].
Qed.

(* ------------------------------------------------------------------ *)
(** ** Labels met for the first time                                  *)
(* ------------------------------------------------------------------ *)

Lemma filter_twice {A} (p q : A -> bool) (l : list A) :
  filter p (filter q l) = filter (fun y => q y && p y) l.
Proof.
  induction l as [|x l IH]; simpl; [reflexivity|].
  destruct (q x); simpl; [destruct (p x)|]; now rewrite IH.
Qed.

Lemma existsb_snoc (l : string) (seen : list string) (x : string) :
  existsb (String.eqb l) (seen ++ [x]) =
  existsb (String.eqb l) seen || String.eqb l x.
Proof. rewrite existsb_app. simpl. now rewrite orb_false_r. Qed.

Lemma unique_labels_first_seen (labels : list string) : forall seen,
  unique_labels seen labels = seen ++ filter (unseen seen) (first_seen labels).
Proof.
  induction labels as [|l r IH]; intros seen; simpl.
  - now rewrite app_nil_r.
  - unfold unseen at 1. rewrite filter_twice.
    destruct (existsb (String.eqb l) seen) eqn:E; simpl; rewrite IH.
    + f_equal. apply filter_ext. intros y. unfold unseen.
      destruct (String.eqb_spec y l) as [->|NE]; simpl; [now rewrite E|reflexivity].
    + rewrite <- app_assoc. simpl. do 2 f_equal.
      apply filter_ext. intros y. unfold unseen. rewrite existsb_snoc.
      now destruct (String.eqb y l), (existsb (String.eqb y) seen).
Qed.

Lemma unique_labels_app (a b seen : list string) :
  unique_labels seen (a ++ b) = unique_labels (unique_labels seen a) b.
Proof.
  revert seen; induction a as [|x a IH]; intros seen; simpl; [reflexivity|].
  now destruct (existsb (String.eqb x) seen); rewrite IH.
Qed.

Lemma fold_unique_labels (indexes : list (list string)) : forall seen,
  fold_left unique_labels indexes seen = unique_labels seen (concat indexes).
Proof.
  induction indexes as [|i r IH]; intros seen; simpl; [reflexivity|].
  now rewrite IH, unique_labels_app.
Qed.

Lemma filter_all {A} (p : A -> bool) (l : list A) :
  (forall x, In x l -> p x = true) -> filter p l = l.
Proof.
  induction l as [|x l IH]; simpl; intros H; [reflexivity|].
  rewrite (H x (or_introl eq_refl)), IH; [reflexivity|].
  intros y Hy. apply H. now right.
Qed.

Lemma union_indexes_first_seen (indexes : list (list string)) :
  union_indexes indexes = first_seen (concat indexes).
Proof.
  unfold union_indexes.
  rewrite fold_unique_labels, unique_labels_first_seen. simpl.
  now apply filter_all.
Qed.

Lemma first_seen_In (labels : list string) (c : string) :
  In c (first_seen labels) <-> In c labels.
Proof.
  induction labels as [|l r IH]; simpl; [tauto|].
  rewrite filter_In, IH, negb_true_iff, String.eqb_neq.
  destruct (String.eqb_spec l c) as [->|NE]; [tauto|].
  split; [tauto | intros [E|H]; [tauto | right; split; congruence]].
Qed.

Lemma first_seen_NoDup (labels : list string) : NoDup (first_seen labels).
Proof.
  induction labels as [|l r IH]; simpl; constructor.
  - rewrite filter_In, negb_true_iff, String.eqb_neq. tauto.
  - now apply NoDup_filter.
Qed.

Lemma first_seen_fixed (labels : list string) :
  NoDup labels -> first_seen labels = labels.
Proof.
  induction labels as [|l r IH]; simpl; intros H; [reflexivity|].
  inversion H as [|? ? Hnotin Hnd]; subst. rewrite IH by assumption.
  rewrite filter_all; [reflexivity|].
  intros y Hy. apply negb_true_iff, String.eqb_neq. congruence.
Qed.

(** A repeated label makes the collapsed list strictly shorter. *)
Lemma first_seen_shorter (labels : list string) :
  ~ NoDup labels -> List.length (first_seen labels) < List.length labels.
Proof.
  intros Hdup.
  destruct (Nat.lt_ge_cases (List.length (first_seen labels)) (List.length labels))
    as [Hlt|Hge]; [assumption|].
  exfalso. apply Hdup.
  apply (NoDup_incl_NoDup (first_seen_NoDup labels) Hge).
  intros x. apply first_seen_In.
Qed.

Example union_indexes_example :
  union_indexes [["t"; "v1"]; ["t"; "v2"]; ["v2"; "lap"; "v1"]] =
    ["t"; "v1"; "v2"; "lap"] /\
  first_seen ["t"; "v1"; "t"; "v2"; "v2"; "lap"; "v1"] =
    ["t"; "v1"; "v2"; "lap"].
Proof. split; reflexivity. Qed.

(* ------------------------------------------------------------------ *)
(** ** [load_dataframes]                                              *)
(* ------------------------------------------------------------------ *)

Section LoaderFacts.
Context {pd : Decoders}.

Lemma load_one_eq dataframes f :
  load_one dataframes f = (Ok (load_step dataframes f), map EvError (failure f)).
Proof.
  unfold load_one, load_step, loads, failure.
  destruct (endswith (name f) ".csv").
  - destruct (read_csv f); reflexivity.
  - destruct (endswith (name f) ".xlsx").
    + destruct (read_excel f); reflexivity.
    + reflexivity.
Qed.

(** The loop never raises: it folds [load_step] and shows the failures. *)
Lemma load_loop files : forall acc,
  for_each load_one files acc =
  (Ok (fold_left load_step files acc), map EvError (flat_map failure files)).
Proof.
  induction files as [|f files IH]; intros acc; simpl.
  - reflexivity.
  - rewrite (bind_ok _ _ _ _ (load_one_eq acc f)), IH. simpl.
    now rewrite map_app.
Qed.

Lemma load_dataframes_eq files :
  load_dataframes files =
  (Ok (fold_left load_step files []), map EvError (flat_map failure files)).
Proof. apply load_loop. Qed.

Lemma diagnostics_errors (msgs : list string) :
  diagnostics (map EvError msgs) = msgs.
Proof. induction msgs; simpl; congruence. Qed.

Lemma failure_fails f : fails f = true -> exists msg, failure f = [msg] /\ attributed msg f.
Proof.
  unfold fails, loads, failure, attributed.
  destruct (endswith (name f) ".csv").
  - destruct (read_csv f); [discriminate|]. intros _. eauto.
  - destruct (endswith (name f) ".xlsx").
    + destruct (read_excel f); [discriminate|]. intros _. eauto.
    + intros _. eauto.
Qed.

Lemma failure_loads f : fails f = false -> failure f = [].
Proof.
  unfold fails, loads, failure.
  destruct (endswith (name f) ".csv").
  - now destruct (read_csv f).
  - destruct (endswith (name f) ".xlsx").
    + now destruct (read_excel f).
    + discriminate.
Qed.

(** One diagnostic for each file that fails, in upload order. *)
Lemma failures_attributed files :
  Forall2 attributed (flat_map failure files) (filter fails files).
Proof.
  induction files as [|f files IH]; simpl.
  - constructor.
  - destruct (fails f) eqn:E.
    + destruct (failure_fails f E) as [msg [-> Hm]]. simpl. now constructor.
    + now rewrite (failure_loads f E).
Qed.

(** With fresh, distinct names every load appends its entry. *)
Lemma load_fold_unique files : forall acc,
  NoDup (map name files) ->
  (forall f, In f files -> ~ In (name f) (keys acc)) ->
  fold_left load_step files acc = acc ++ flat_map entry files.
Proof.
  induction files as [|f files IH]; intros acc Hnd Hfresh; simpl.
  - now rewrite app_nil_r.
  - inversion Hnd as [|? ? Hnotin Hnd']; subst.
    rewrite IH; [ | assumption | ].
    + unfold load_step, entry.
      destruct (loads f) as [df|]; simpl.
      * rewrite dict_set_fresh by (apply Hfresh; now left).
        now rewrite <- app_assoc.
      * reflexivity.
    + intros g Hg Hin.
      unfold load_step in Hin.
      destruct (loads f) as [df|].
      * rewrite dict_set_fresh in Hin by (apply Hfresh; now left).
        unfold keys in Hin. rewrite map_app in Hin.
        apply in_app_or in Hin as [Hin|[Hin|[]]].
        -- apply (Hfresh g); [now right | exact Hin].
        -- simpl in Hin. apply Hnotin. rewrite Hin. now apply in_map.
      * apply (Hfresh g); [now right | exact Hin].
Qed.

Lemma entries_keys files :
  keys (flat_map entry files) = map name (loaded files).
Proof.
  induction files as [|f files IH]; simpl; [reflexivity|].
  unfold keys, loaded in *. rewrite map_app, IH.
  unfold entry, fails.
  now destruct (loads f).
Qed.

Lemma entries_all_fail files :
  (forall f, In f files -> fails f = true) -> flat_map entry files = [].
Proof.
  induction files as [|f files IH]; simpl; intros H; [reflexivity|].
  rewrite IH by (intros g Hg; apply H; now right).
  specialize (H f (or_introl eq_refl)).
  unfold entry, fails in *.
  now destruct (loads f).
Qed.


Lemma last_error_app {A} (h t : list A) :
  last_error (h ++ t) =
  match last_error t with Some x => Some x | None => last_error h end.
Proof.
  unfold last_error. rewrite rev_app_distr. now destruct (rev t).
Qed.

(** Each name maps to the table decoded last under that name. *)
Lemma load_lookup files : forall acc nm,
  dict_get (fold_left load_step files acc) nm =
  match last_error (loaded_as nm files) with
  | Some df => Some df
  | None => dict_get acc nm
  end.
Proof.
  induction files as [|f files IH]; intros acc nm; simpl.
  - reflexivity.
  - rewrite IH, last_error_app.
    destruct (last_error (loaded_as nm files)); [reflexivity|].
    unfold load_step, entry. destruct (loads f) as [df|]; simpl.
    + rewrite dict_get_set. now destruct (String.eqb (name f) nm).
    + now destruct (String.eqb (name f) nm).
Qed.

Lemma loaded_as_absent nm files :
  ~ In nm (map name files) -> loaded_as nm files = [].
Proof.
  induction files as [|f files IH]; simpl; intros H; [reflexivity|].
  rewrite IH by tauto.
  destruct (String.eqb_spec (name f) nm); [tauto | reflexivity].
Qed.

Lemma loaded_as_unique files f :
  NoDup (map name files) -> In f files ->
  loaded_as (name f) files = map snd (entry f).
Proof.
  induction files as [|g files IH]; simpl; intros Hnd Hin; [tauto|].
  inversion Hnd as [|? ? Hnotin Hnd']; subst.
  destruct (String.eqb_spec (name g) (name f)) as [E|NE].
  - destruct Hin as [->|Hin].
    + rewrite loaded_as_absent by assumption. now rewrite app_nil_r.
    + exfalso. apply Hnotin. rewrite E. now apply in_map.
  - destruct Hin as [->|Hin]; [congruence|]. simpl. now apply IH.
Qed.

(** C1. When the uploaded files have pairwise distinct names,
    [load_dataframes] returns normally; the mapping holds, in upload
    order, one entry for each file that has a recognized extension and
    decodes, keyed by the file's name, and no entry for any other file;
    the loader shows nothing but diagnostics, one for each file that
    fails and naming it, in upload order; and the mapping is empty when
    every file fails. *)
Theorem load_dataframes_unique_names (files : list UploadedFile) :
  NoDup (map name files) ->
  exists dataframes out,
    load_dataframes files = (Ok dataframes, out) /\
    dataframes = flat_map entry files /\
    keys dataframes = map name (loaded files) /\
    (forall f, In f files -> dict_get dataframes (name f) = loads f) /\
    out = map EvError (diagnostics out) /\
    Forall2 attributed (diagnostics out) (filter fails files) /\
    ((forall f, In f files -> fails f = true) -> dataframes = []).
Proof.
  intros Hnd.
  exists (fold_left load_step files []), (map EvError (flat_map failure files)).
  assert (Hd : fold_left load_step files [] = flat_map entry files).
  { rewrite load_fold_unique; [reflexivity | assumption | intros f _ []]. }
  rewrite diagnostics_errors.
  split; [apply load_dataframes_eq|].
  split; [exact Hd|].
  split; [rewrite Hd; apply entries_keys|].
  split.
  { intros f Hf. rewrite load_lookup, (loaded_as_unique files f Hnd Hf).
    unfold entry. now destruct (loads f). }
  split; [reflexivity|].
  split; [apply failures_attributed|].
  intros Hall. rewrite Hd. now apply entries_all_fail.
Qed.

(** The keys of the mapping are the names of the files that load, each
    once, where it was first inserted. *)
Lemma load_keys files : forall acc,
  keys (fold_left load_step files acc) =
  unique_labels (keys acc) (map name (loaded files)).
Proof.
  induction files as [|f files IH]; intros acc; simpl; [reflexivity|].
  rewrite IH. unfold load_step, fails.
  destruct (loads f) as [df|]; simpl; [|reflexivity].
  rewrite keys_dict_set.
  now destruct (existsb (String.eqb (name f)) (keys acc)).
Qed.

Lemma loaded_as_nil nm files :
  (forall g, In g files -> name g = nm -> fails g = true) ->
  loaded_as nm files = [].
Proof.
  induction files as [|g files IH]; simpl; intros H; [reflexivity|].
  rewrite IH by (intros h Hh; apply H; now right).
  destruct (String.eqb_spec (name g) nm) as [E|NE]; [|reflexivity].
  specialize (H g (or_introl eq_refl) E).
  unfold entry, fails in *. now destruct (loads g).
Qed.

Lemma loaded_as_app nm l l' :
  loaded_as nm (l ++ l') = loaded_as nm l ++ loaded_as nm l'.
Proof. apply flat_map_app. Qed.

(** C9. When two uploaded files share a name and both decode,
    [load_dataframes] still returns normally, and every name maps to the
    table decoded last under it: the later table replaces the earlier
    one (it is the one kept when no file after it decodes under the same
    name). The replacement is silent: the diagnostics are those of the
    files that fail, one each. The keys are the names of the files that
    load, each once, in first-insertion order, so the mapping has fewer
    entries than there are files that load. *)
Theorem load_dataframes_duplicate_names
    (l1 l2 l3 : list UploadedFile) (f1 f2 : UploadedFile) :
  name f1 = name f2 -> fails f1 = false -> fails f2 = false ->
  let files := l1 ++ f1 :: l2 ++ f2 :: l3 in
  exists dataframes out,
    load_dataframes files = (Ok dataframes, out) /\
    (forall nm, dict_get dataframes nm = last_error (loaded_as nm files)) /\
    ((forall g, In g l3 -> name g = name f2 -> fails g = true) ->
     dict_get dataframes (name f2) = loads f2) /\
    keys dataframes = first_seen (map name (loaded files)) /\
    Forall2 attributed (diagnostics out) (filter fails files) /\
    List.length dataframes < List.length (loaded files).
Proof.
  intros Hname H1 H2 files.
  exists (fold_left load_step files []), (map EvError (flat_map failure files)).
  assert (Hkeys : keys (fold_left load_step files []) =
                  first_seen (map name (loaded files))).
  { rewrite load_keys, unique_labels_first_seen. simpl.
    now apply filter_all. }
  assert (Hget : forall nm, dict_get (fold_left load_step files []) nm =
                            last_error (loaded_as nm files)).
  { intros nm. rewrite load_lookup.
    now destruct (last_error (loaded_as nm files)). }
  rewrite diagnostics_errors.
  split; [apply load_dataframes_eq|].
  split; [exact Hget|].
  split.
  { intros Hlast. rewrite Hget. unfold files.
    rewrite loaded_as_app. simpl. rewrite loaded_as_app. simpl.
    rewrite (loaded_as_nil _ l3 Hlast), String.eqb_refl.
    rewrite !app_nil_r, !last_error_app.
    unfold fails, entry in *. destruct (loads f2); [reflexivity|discriminate]. }
  split; [exact Hkeys|].
  split; [apply failures_attributed|].
  rewrite <- (length_map fst (fold_left load_step files [])).
  fold (keys (fold_left load_step files [])). rewrite Hkeys.
  rewrite <- (length_map name (loaded files)).
  apply first_seen_shorter. intros Hnd.
  unfold files, loaded in Hnd.
  rewrite filter_app in Hnd. simpl in Hnd. rewrite H1 in Hnd. simpl in Hnd.
  rewrite filter_app in Hnd. simpl in Hnd. rewrite H2 in Hnd. simpl in Hnd.
  rewrite map_app in Hnd. simpl in Hnd.
  apply NoDup_remove_2 in Hnd. apply Hnd.
  apply in_or_app. right. rewrite map_app. apply in_or_app. right.
  simpl. left. now symmetry.
Qed.

(** C10. The loader recognizes a file by an exact suffix of its name:
    [recognized] holds exactly when the name is some stem followed by
    the lowercase ".csv" or ".xlsx". Every uploaded file whose name has
    neither suffix is reported by the diagnostic
    "Unsupported file type: <name>" and its name is not a key of the
    mapping; "DATA.CSV" and "data.xls" are such names. *)
Theorem load_dataframes_unsupported_extension
    (files : list UploadedFile) (f : UploadedFile) :
  In f files ->
  (forall stem, name f <> stem +++ ".csv") ->
  (forall stem, name f <> stem +++ ".xlsx") ->
  exists dataframes out,
    load_dataframes files = (Ok dataframes, out) /\
    recognized f = false /\
    In ("Unsupported file type: " +++ name f) (diagnostics out) /\
    dict_get dataframes (name f) = None /\
    ~ In (name f) (keys dataframes) /\
    (forall g, recognized g = true <->
               exists stem, name g = stem +++ ".csv" \/ name g = stem +++ ".xlsx") /\
    endswith "DATA.CSV" ".csv" = false /\ endswith "DATA.CSV" ".xlsx" = false /\
    endswith "data.xls" ".csv" = false /\ endswith "data.xls" ".xlsx" = false.
Proof.
  intros Hin Hcsv Hxlsx.
  assert (Ec : endswith (name f) ".csv" = false).
  { destruct (endswith (name f) ".csv") eqn:E; [|reflexivity].
    apply endswith_spec in E as [stem E]. now destruct (Hcsv stem). }
  assert (Ex : endswith (name f) ".xlsx" = false).
  { destruct (endswith (name f) ".xlsx") eqn:E; [|reflexivity].
    apply endswith_spec in E as [stem E]. now destruct (Hxlsx stem). }
  exists (fold_left load_step files []), (map EvError (flat_map failure files)).
  assert (Hget : dict_get (fold_left load_step files []) (name f) = None).
  { rewrite load_lookup, loaded_as_nil; [reflexivity|].
    intros g _ E. unfold fails, loads. now rewrite E, Ec, Ex. }
  rewrite diagnostics_errors.
  split; [apply load_dataframes_eq|].
  split; [unfold recognized; now rewrite Ec, Ex|].
  split.
  { apply in_flat_map. exists f. split; [assumption|].
    unfold failure. rewrite Ec, Ex. now left. }
  split; [exact Hget|].
  split; [now apply dict_get_None|].
  split; [|repeat split; reflexivity].
  intros g. unfold recognized. rewrite orb_true_iff, !endswith_spec.
  split.
  - intros [[stem E]|[stem E]]; exists stem; tauto.
  - intros [stem [E|E]]; [left|right]; now exists stem.
Qed.
End LoaderFacts.

(* ------------------------------------------------------------------ *)
(** ** [plot_data]                                                    *)
(* ------------------------------------------------------------------ *)

Lemma pyval_eqb_eq (a b : pyval) : pyval_eqb a b = true <-> a = b.
Proof.
  destruct a as [x|], b as [y|]; simpl; try (split; [discriminate|congruence]).
  - rewrite String.eqb_eq. split; congruence.
  - tauto.
Qed.

Lemma pyval_eqb_neq (a b : pyval) : a <> b -> pyval_eqb a b = false.
Proof.
  intros H. destruct (pyval_eqb a b) eqn:E; [|reflexivity].
  now apply pyval_eqb_eq in E.
Qed.

Lemma in_columns_get (data : DataFrame) (label : string) :
  In label (columns data) ->
  exists c, dict_get data label = Some c /\ In (label, c) data.
Proof.
  intros H. destruct (dict_get data label) as [c|] eqn:E.
  - exists c. split; [reflexivity | now apply dict_get_In].
  - now apply dict_get_None in E.
Qed.

Lemma get_in_columns (data : DataFrame) (label : string) c :
  dict_get data label = Some c -> In label (columns data).
Proof.
  intros H. apply dict_get_In in H.
  unfold columns. now apply (in_map fst) in H.
Qed.

(** What [plot_data] does in a supported mode when both columns exist. *)
Lemma plot_data_supported (data : DataFrame) (x y : string) xs ys
    (plot_title : string) (plot_type : pyval) (mode : string) :
  (plot_type = Some "Line Plot" /\ mode = "lines" \/
   plot_type = Some "Scatter Plot" /\ mode = "markers") ->
  dict_get data x = Some xs -> dict_get data y = Some ys ->
  plot_data data (Some x) (Some y) plot_title plot_type =
  (Ok {| fig_data := [mkTrace xs ys mode];
         fig_layout :=
           {| title := Some plot_title;
              xaxis := mkAxis (Some x) (Some "#4a4a4a") (Some "#4a4a4a");
              yaxis := mkAxis (Some y) (Some "#4a4a4a") (Some "#4a4a4a");
              plot_bgcolor := Some "#111111";
              paper_bgcolor := Some "#111111";
              font_color := Some "#FFFFFF" |} |}, []).
Proof.
  intros [[-> ->]|[-> ->]] Hx Hy; unfold plot_data; simpl; now rewrite Hx, Hy.
Qed.

(** A supported mode yields a figure only when both columns exist. *)
Lemma plot_data_supported_inv (data : DataFrame) (x_axis y_axis : pyval)
    (plot_title : string) (plot_type : pyval) fig out :
  plot_type = Some "Line Plot" \/ plot_type = Some "Scatter Plot" ->
  plot_data data x_axis y_axis plot_title plot_type = (Ok fig, out) ->
  exists x y xs ys,
    x_axis = Some x /\ y_axis = Some y /\
    dict_get data x = Some xs /\ dict_get data y = Some ys.
Proof.
  intros Hmode H.
  assert (Hget : exists xs ys, getitem data x_axis = Ok xs /\
                               getitem data y_axis = Ok ys).
  { destruct Hmode as [-> | ->]; unfold plot_data in H; simpl in H;
      destruct (getitem data x_axis) as [xs|e]; simpl in H; try discriminate;
      destruct (getitem data y_axis) as [ys|e]; simpl in H; try discriminate;
      eauto. }
  destruct Hget as [xs [ys [Hx Hy]]]. unfold getitem in Hx, Hy.
  destruct x_axis as [x|]; [|discriminate].
  destruct y_axis as [y|]; [|discriminate].
  destruct (dict_get data x) as [xs'|] eqn:Gx; [|discriminate].
  destruct (dict_get data y) as [ys'|] eqn:Gy; [|discriminate].
  exists x, y, xs', ys'. repeat split; assumption.
Qed.

Lemma dark_theme_styled (t : pyval) (x y : pyval) :
  dark_theme
    {| title := t;
       xaxis := mkAxis x (Some "#4a4a4a") (Some "#4a4a4a");
       yaxis := mkAxis y (Some "#4a4a4a") (Some "#4a4a4a");
       plot_bgcolor := Some "#111111";
       paper_bgcolor := Some "#111111";
       font_color := Some "#FFFFFF" |}.
Proof.
  unfold dark_theme; simpl. repeat (split; [reflexivity|]).
  repeat split.
  - exists "#111111", "#4a4a4a", 51, 222. repeat split; lia.
  - exists "#111111", "#4a4a4a", 51, 222. repeat split; lia.
  - exists "#4a4a4a", "#FFFFFF", 222, 765. repeat split; lia.
  - exists "#4a4a4a", "#FFFFFF", 222, 765. repeat split; lia.
Qed.

Example brightness_examples :
  brightness "#111111" = Some 51 /\
  brightness "#4a4a4a" = Some 222 /\
  brightness "#FFFFFF" = Some 765 /\
  brightness "white" = None.
Proof. repeat split. Qed.

(** C4. In a mode that is neither "Line Plot" nor "Scatter Plot",
    [plot_data] never raises, whatever the table and the columns are: it
    shows exactly one diagnostic, which names the mode, and returns the
    empty figure. In the loop that draws the plots such a slot shows the
    diagnostic and the empty figure, and the loop goes on with the
    remaining slots. *)
Theorem plot_data_unsupported_mode (data : DataFrame) (x_axis y_axis : pyval)
    (plot_title : string) (plot_type : pyval) :
  plot_type <> Some "Line Plot" -> plot_type <> Some "Scatter Plot" ->
  let msg := "Unsupported plot type: " +++ py_str plot_type in
  plot_data data x_axis y_axis plot_title plot_type =
    (Ok (go_Figure []), [EvError msg]) /\
  diagnostics (snd (plot_data data x_axis y_axis plot_title plot_type)) = [msg] /\
  fig_data (go_Figure []) = [] /\
  forall file_name rest,
    for_each render_slot
      (mkConfig file_name x_axis y_axis plot_type data plot_title :: rest) tt =
    (fst (for_each render_slot rest tt),
     EvError msg :: EvChart (go_Figure []) :: snd (for_each render_slot rest tt)).
Proof.
  intros Hl Hs msg.
  assert (E : plot_data data x_axis y_axis plot_title plot_type =
              (Ok (go_Figure []), [EvError msg])).
  { unfold plot_data.
    now rewrite (pyval_eqb_neq _ _ Hl), (pyval_eqb_neq _ _ Hs). }
  split; [exact E|]. split; [now rewrite E|]. split; [reflexivity|].
  intros file_name rest. simpl. unfold render_slot at 1. simpl.
  rewrite E. simpl. now destruct (for_each render_slot rest tt).
Qed.

(** C5. When both columns exist in the table, "Line Plot" and
    "Scatter Plot" both return a figure and show nothing. Each figure has
    one trace whose x and y values are the two columns as the table
    stores them, in row order; the two figures have the same layout (the
    given title, the column names as axis titles, the same theme) and
    differ only in the mode of the trace: "lines" against "markers". *)
Theorem plot_data_line_vs_scatter (data : DataFrame) (x y : string)
    (plot_title : string) :
  In x (columns data) -> In y (columns data) ->
  exists xs ys line scatter,
    dict_get data x = Some xs /\ In (x, xs) data /\
    dict_get data y = Some ys /\ In (y, ys) data /\
    plot_data data (Some x) (Some y) plot_title (Some "Line Plot") =
      (Ok line, []) /\
    plot_data data (Some x) (Some y) plot_title (Some "Scatter Plot") =
      (Ok scatter, []) /\
    fig_data line = [mkTrace xs ys "lines"] /\
    fig_data scatter = [mkTrace xs ys "markers"] /\
    fig_layout line = fig_layout scatter /\
    title (fig_layout line) = Some plot_title /\
    axis_title (xaxis (fig_layout line)) = Some x /\
    axis_title (yaxis (fig_layout line)) = Some y /\
    dark_theme (fig_layout line).
Proof.
  intros Hx Hy.
  destruct (in_columns_get data x Hx) as [xs [Gx Ix]].
  destruct (in_columns_get data y Hy) as [ys [Gy Iy]].
  exists xs, ys. eexists. eexists.
  split; [exact Gx|]. split; [exact Ix|].
  split; [exact Gy|]. split; [exact Iy|].
  split; [apply (plot_data_supported data x y xs ys plot_title _ "lines");
          [left; split; reflexivity | exact Gx | exact Gy]|].
  split; [apply (plot_data_supported data x y xs ys plot_title _ "markers");
          [right; split; reflexivity | exact Gx | exact Gy]|].
  simpl. repeat (split; [reflexivity|]). apply dark_theme_styled.
Qed.

(** C8 (amended). Every figure [plot_data] returns in the mode
    "Line Plot" or "Scatter Plot" carries the fixed dark theme, whatever
    the table, the columns and the title are: near-black plot area and
    canvas, white text, grey grid and zero lines between the two. *)
Theorem plot_data_supported_theme (data : DataFrame) (x_axis y_axis : pyval)
    (plot_title : string) (plot_type : pyval) fig out :
  plot_type = Some "Line Plot" \/ plot_type = Some "Scatter Plot" ->
  plot_data data x_axis y_axis plot_title plot_type = (Ok fig, out) ->
  dark_theme (fig_layout fig).
Proof.
  intros Hmode H.
  destruct (plot_data_supported_inv _ _ _ _ _ _ _ Hmode H)
    as [x [y [xs [ys [-> [-> [Gx Gy]]]]]]].
  assert (exists mode,
             plot_type = Some "Line Plot" /\ mode = "lines" \/
             plot_type = Some "Scatter Plot" /\ mode = "markers") as [mode Hm].
  { destruct Hmode; [exists "lines" | exists "markers"]; tauto. }
  rewrite (plot_data_supported data x y xs ys plot_title plot_type mode Hm Gx Gy)
    in H.
  injection H as <- _. simpl. apply dark_theme_styled.
Qed.

(** C8, as stated, fails: in an unsupported mode the figure returned
    is the empty one, on which no colour is set. *)
Lemma plot_data_fallback_has_no_theme :
  let data := [("t", [Num 1; Num 2]); ("v1", [Num 5; Num 3])] in
  plot_data data (Some "t") (Some "v1") "a.csv - v1 vs t" (Some "Bar Plot") =
    (Ok (go_Figure []), [EvError "Unsupported plot type: Bar Plot"]) /\
  plot_bgcolor (fig_layout (go_Figure [])) = None /\
  ~ dark_theme (fig_layout (go_Figure [])).
Proof.
  split; [reflexivity|]. split; [reflexivity|].
  intros [H _]. discriminate H.
Qed.

(* ------------------------------------------------------------------ *)
(** ** The catalog                                                    *)
(* ------------------------------------------------------------------ *)

Lemma pd_concat_columns (objs : list DataFrame) combined :
  pd_concat objs = Ok combined ->
  columns combined = union_indexes (map columns objs).
Proof.
  destruct objs as [|o objs]; simpl; [discriminate|].
  intros [= <-]. unfold columns at 1. rewrite map_map. simpl. apply map_id.
Qed.

Lemma pd_concat_nonempty (objs : list DataFrame) :
  objs <> [] -> exists combined, pd_concat objs = Ok combined.
Proof. destruct objs; [congruence | simpl; eauto]. Qed.

Lemma in_concat_columns (dataframes : dict DataFrame) (c : string) :
  In c (concat (map columns (values dataframes))) <->
  exists nm df, In (nm, df) dataframes /\ In c (columns df).
Proof.
  rewrite in_concat. split.
  - intros [l [Hl Hc]]. apply in_map_iff in Hl as [df [<- Hdf]].
    apply in_map_iff in Hdf as [[nm df'] [E Hin]]. simpl in E. subst df'.
    now exists nm, df.
  - intros [nm [df [Hin Hc]]]. exists (columns df). split; [|assumption].
    apply in_map. unfold values. now apply (in_map snd) in Hin.
Qed.

(* ------------------------------------------------------------------ *)
(** ** [main]                                                         *)
(* ------------------------------------------------------------------ *)

Lemma selectbox_In {A} (options : list A) index choice v :
  selectbox options index choice = Some v -> In v options.
Proof.
  unfold selectbox. destruct choice as [k|].
  - destruct (nth_error options k) eqn:E.
    + intros [= <-]. eapply nth_error_In; eassumption.
    + apply nth_error_In.
  - apply nth_error_In.
Qed.

Lemma selectbox_first {A} (options : list A) choice :
  options <> [] -> exists v, selectbox options 0 choice = Some v.
Proof.
  intros H. unfold selectbox. destruct options as [|o options]; [congruence|].
  destruct choice as [k|]; simpl; [|eauto].
  destruct (nth_error (o :: options) k); eauto.
Qed.

Lemma selectbox_empty {A} index choice : @selectbox A [] index choice = None.
Proof.
  unfold selectbox. destruct choice as [[|k]|], index; reflexivity.
Qed.

(** A pick that the options no longer have falls back to the default. *)
Example selectbox_examples :
  selectbox ["t"; "v1"] 0 None = Some "t" /\
  selectbox ["t"; "v1"] 0 (Some 1) = Some "v1" /\
  selectbox ["t"; "v1"] 0 (Some 5) = Some "t" /\
  selectbox [1; 2; 3; 4] 1 None = Some 2 /\
  selectbox (@nil string) 0 (Some 1) = None.
Proof. repeat split. Qed.

Section MainFacts.
Context {pd : Decoders}.
Variable ui : Widgets.

Lemma getitem_ok {V} (d : dict V) (k : pyval) v :
  getitem d k = Ok v -> exists key, k = Some key /\ dict_get d key = Some v.
Proof.
  unfold getitem. destruct k as [key|]; [|discriminate].
  destruct (dict_get d key) eqn:E; [|discriminate].
  intros [= <-]. now exists key.
Qed.

Lemma selectbox_plot_type choice :
  selectbox ["Line Plot"; "Scatter Plot"] 0 choice = Some "Line Plot" \/
  selectbox ["Line Plot"; "Scatter Plot"] 0 choice = Some "Scatter Plot".
Proof.
  unfold selectbox. destruct choice as [[|[|k]]|]; simpl; try tauto.
  destruct k; simpl; tauto.
Qed.

(** The entry the loop builds for slot [i] from the table [df]. *)
Lemma configure_slot_eq dataframes plot_configs i :
  configure_slot ui dataframes plot_configs i =
  let file_name :=
    selectbox (keys dataframes) 0 (picked ui ("file_name_" +++ str_of_nat i)) in
  match getitem dataframes file_name with
  | Ok df =>
      let x_axis :=
        selectbox (columns df) 0 (picked ui ("x_axis_" +++ str_of_nat i)) in
      let y_axis :=
        selectbox (columns df) 0 (picked ui ("y_axis_" +++ str_of_nat i)) in
      let plot_type :=
        selectbox ["Line Plot"; "Scatter Plot"] 0
          (picked ui ("plot_type_" +++ str_of_nat i)) in
      (Ok (plot_configs ++
           [mkConfig file_name x_axis y_axis plot_type df
              (derived_title file_name x_axis y_axis)]),
       [EvSubheader ("Plot " +++ str_of_nat (i + 1))])
  | Raise e => (Raise e, [EvSubheader ("Plot " +++ str_of_nat (i + 1))])
  end.
Proof.
  unfold configure_slot, bind, emit, call, ret, derived_title.
  cbv zeta. now destruct (getitem dataframes _).
Qed.

(** A slot that is configured adds one entry, built from the table of
    the chosen source. *)
Lemma configure_slot_ok dataframes plot_configs i res out :
  configure_slot ui dataframes plot_configs i = (Ok res, out) ->
  exists c, res = plot_configs ++ [c] /\ configured dataframes c.
Proof.
  rewrite configure_slot_eq. cbv zeta.
  destruct (getitem dataframes _) as [df|e] eqn:G; [|discriminate].
  intros [= <- _]. eexists. split; [reflexivity|].
  apply getitem_ok in G as [nm [Hsel Hget]].
  unfold configured, columns_exist.
  cbn [cfg_file_name cfg_x_axis cfg_y_axis cfg_plot_type cfg_df cfg_title].
  split; [now exists nm|].
  split; [apply selectbox_plot_type|].
  split.
  { intros Hne.
    destruct (selectbox_first (columns df)
                (picked ui ("x_axis_" +++ str_of_nat i)) Hne) as [x Hx].
    destruct (selectbox_first (columns df)
                (picked ui ("y_axis_" +++ str_of_nat i)) Hne) as [y Hy].
    exists x, y. split; [exact Hx|]. split; [exact Hy|].
    split; eapply selectbox_In; eassumption. }
  split.
  { intros E. rewrite E. split; apply selectbox_empty. }
  reflexivity.
Qed.

Lemma configure_loop_configured dataframes slots : forall acc plot_configs out,
  Forall (configured dataframes) acc ->
  for_each (configure_slot ui dataframes) slots acc = (Ok plot_configs, out) ->
  Forall (configured dataframes) plot_configs.
Proof.
  intros acc plot_configs out.
  apply (for_each_invariant (Forall (configured dataframes))).
  intros a i a' o _ Ha H.
  apply configure_slot_ok in H as [c [-> Hc]].
  apply Forall_app. split; [assumption | now constructor].
Qed.

Lemma configure_slot_shows dataframes acc i :
  Forall (sound_event dataframes) (snd (configure_slot ui dataframes acc i)).
Proof.
  rewrite configure_slot_eq. cbv zeta.
  destruct (getitem dataframes _); simpl; repeat constructor.
Qed.

(** A configured slot draws, when it draws, the chart of its source. *)
Lemma render_slot_shows dataframes c :
  configured dataframes c ->
  Forall (sound_event dataframes) (snd (render_slot tt c)).
Proof.
  intros [[nm [Hnm Hdf]] [Hmode [_ [_ Htitle]]]].
  unfold render_slot.
  destruct (plot_data (cfg_df c) (cfg_x_axis c) (cfg_y_axis c) (cfg_title c)
              (cfg_plot_type c)) as [[fig|e] out] eqn:E.
  - destruct (plot_data_supported_inv _ _ _ _ _ _ _ Hmode E)
      as [x [y [xs [ys [Hx [Hy [Gx Gy]]]]]]].
    assert (exists mode,
               cfg_plot_type c = Some "Line Plot" /\ mode = "lines" \/
               cfg_plot_type c = Some "Scatter Plot" /\ mode = "markers")
      as [mode Hm].
    { destruct Hmode; [exists "lines" | exists "markers"]; tauto. }
    rewrite Hx, Hy in E.
    rewrite (plot_data_supported _ x y xs ys _ _ mode Hm Gx Gy) in E.
    injection E as <- <-. simpl. constructor; [|constructor].
    exists nm, x, y, mode. exists (cfg_df c), xs, ys. simpl.
    rewrite Htitle, Hnm, Hx, Hy. unfold derived_title. simpl.
    repeat (split; [first [assumption | reflexivity]|]).
    split; [destruct Hm as [[_ ->]|[_ ->]]; tauto|].
    repeat (split; [reflexivity|]). apply dark_theme_styled.
  - simpl. unfold plot_data in E.
    destruct Hmode as [Hm|Hm]; rewrite Hm in E; simpl in E;
      destruct (getitem (cfg_df c) (cfg_x_axis c)); simpl in E;
      try (injection E as _ <-; constructor);
      destruct (getitem (cfg_df c) (cfg_y_axis c)); simpl in E;
      try discriminate; injection E as _ <-; constructor.
Qed.

Lemma bind_shows {A B} (P : ui_event -> Prop) (m : Script A)
    (f : A -> Script B) :
  Forall P (snd m) ->
  (forall a, fst m = Ok a -> Forall P (snd (f a))) ->
  Forall P (snd (bind m f)).
Proof.
  destruct m as [[a|e] out1]; simpl; intros Hm Hf.
  - specialize (Hf a eq_refl). destruct (f a) as [r out2]; simpl in *.
    apply Forall_app. now split.
  - exact Hm.
Qed.

Lemma preview_shows dataframes (d : dict DataFrame) :
  Forall (sound_event dataframes) (snd (for_each preview d tt)).
Proof.
  apply for_each_shows. intros acc item _. simpl. repeat constructor.
Qed.

Lemma render_loop_shows dataframes plot_configs :
  Forall (configured dataframes) plot_configs ->
  Forall (sound_event dataframes) (snd (for_each render_slot plot_configs tt)).
Proof.
  intros H. apply for_each_shows. intros [] c Hc.
  apply render_slot_shows. rewrite Forall_forall in H. now apply H.
Qed.

(** Whatever the catalog is, every chart the script shows is the chart
    of a loaded table. *)
Lemma configure_and_render_shows available_columns dataframes :
  Forall (sound_event dataframes)
         (snd (configure_and_render ui available_columns dataframes)).
Proof.
  unfold configure_and_render.
  apply bind_shows; [repeat constructor|]. intros _ _.
  apply bind_shows; [repeat constructor|]. intros _ _.
  apply bind_shows; [apply preview_shows|]. intros _ _.
  apply bind_shows; [constructor|]. intros slots _.
  apply bind_shows.
  { apply for_each_shows. intros acc i _. apply configure_slot_shows. }
  intros plot_configs Hok.
  destruct (clicked ui "Generate Plots"); [|constructor].
  apply render_loop_shows.
  destruct (for_each (configure_slot ui dataframes) slots [])
    as [r out] eqn:E. simpl in Hok. subst r.
  eapply configure_loop_configured; [constructor | exact E].
Qed.

Lemma load_shows files (P : ui_event -> Prop) :
  (forall msg, P (EvError msg)) ->
  Forall P (snd (load_dataframes files)).
Proof.
  intros HP. rewrite load_dataframes_eq. simpl.
  apply Forall_forall. intros ev Hev.
  apply in_map_iff in Hev as [msg [<- _]]. apply HP.
Qed.

Lemma main_shows files dataframes diag :
  load_dataframes files = (Ok dataframes, diag) ->
  Forall (sound_event dataframes) (snd (main ui files)).
Proof.
  intros Hload. unfold main.
  apply bind_shows; [repeat constructor|]. intros _ _.
  apply bind_shows; [repeat constructor|]. intros _ _.
  destruct files as [|f files].
  - apply bind_shows; [repeat constructor|]. intros _ _.
    apply bind_shows; [repeat constructor|]. intros _ _.
    repeat constructor.
  - apply bind_shows.
    { apply load_shows. intros msg. exact I. }
    intros d Hd. rewrite Hload in Hd. simpl in Hd. injection Hd as <-.
    apply bind_shows; [constructor|]. intros combined _.
    apply configure_and_render_shows.
Qed.

Lemma load_all_fail files : forall acc,
  (forall f, In f files -> fails f = true) ->
  fold_left load_step files acc = acc.
Proof.
  induction files as [|f files IH]; intros acc H; simpl; [reflexivity|].
  rewrite IH by (intros g Hg; apply H; now right).
  specialize (H f (or_introl eq_refl)).
  unfold load_step, fails in *. now destruct (loads f).
Qed.

(** C2. The code does not hold the claim: when files are uploaded and
    none of them loads, [main] goes on to [pd.concat] with no table, and
    the run ends with the uncaught [ValueError] of [pd.concat]; the page
    shows the two headings and the diagnostics of the loader, and no
    "no usable data" state. *)
Theorem main_raises_without_datasets (files : list UploadedFile) :
  files <> [] ->
  (forall f, In f files -> fails f = true) ->
  load_dataframes files = (Ok [], map EvError (flat_map failure files)) /\
  main ui files =
    (Raise (ValueError "No objects to concatenate"),
     EvTitle "NFR 25 DAQ Interface"
     :: EvWrite "Northwestern Formula Racing's DAQ data analysis tool. Upload your data using the sidebar."
     :: map EvError (flat_map failure files)).
Proof.
  intros Hne Hall.
  assert (Hload : load_dataframes files =
                  (Ok [], map EvError (flat_map failure files))).
  { rewrite load_dataframes_eq. now rewrite load_all_fail. }
  split; [exact Hload|].
  destruct files as [|f files]; [congruence|].
  unfold main. rewrite Hload. simpl. now rewrite app_nil_r.
Qed.
End MainFacts.

(* ------------------------------------------------------------------ *)
(** ** The catalog, the plot configurations and the charts            *)
(* ------------------------------------------------------------------ *)

Section Session.
Context {pd : Decoders}.
Variable ui : Widgets.

(** C3 (amended). Whatever the widgets hold, every entry of
    [plot_configs] takes its table from the mapping under its source, and
    when that table has at least one column both its X and its Y column
    are columns of that table; and every chart [main] shows is drawn from
    two columns that exist in a loaded table. *)
Theorem plot_columns_exist (files : list UploadedFile)
    (dataframes : dict DataFrame) (diag : list ui_event) :
  load_dataframes files = (Ok dataframes, diag) ->
  (forall slots plot_configs out,
      for_each (configure_slot ui dataframes) slots [] = (Ok plot_configs, out) ->
      forall c, In c plot_configs ->
        (exists nm, cfg_file_name c = Some nm /\
                    dict_get dataframes nm = Some (cfg_df c)) /\
        (columns (cfg_df c) <> [] -> columns_exist c)) /\
  (forall fig, In (EvChart fig) (snd (main ui files)) ->
     exists nm x y mode df,
       chart_of dataframes fig nm x y mode /\
       dict_get dataframes nm = Some df /\
       In x (columns df) /\ In y (columns df)).
Proof.
  intros Hload. split.
  - intros slots plot_configs out Hrun c Hc.
    pose proof (configure_loop_configured ui dataframes slots [] plot_configs
                  out (Forall_nil _) Hrun) as Hall.
    rewrite Forall_forall in Hall.
    destruct (Hall c Hc) as [Hsrc [_ [Hcols _]]]. now split.
  - intros fig Hfig.
    pose proof (main_shows ui files dataframes diag Hload) as Hall.
    rewrite Forall_forall in Hall.
    destruct (Hall _ Hfig) as [nm [x [y [mode Hchart]]]].
    exists nm, x, y, mode.
    destruct Hchart as [df [xs [ys [Hdf [Hx [Hy Hrest]]]]]].
    exists df. split; [now exists df, xs, ys|].
    split; [exact Hdf|]. split; eapply get_in_columns; eassumption.
Qed.

End Session.

(* ------------------------------------------------------------------ *)
(** ** The sample session                                             *)
(* ------------------------------------------------------------------ *)

(** The scenario of two logs and two plots: two charts, a line for
    "a.csv" and markers for "b.csv", with the derived titles. *)
Example two_plots_scenario :
  let page := snd (main (pd := sample_decoders) two_plots [a_csv; b_csv]) in
  fst (main (pd := sample_decoders) two_plots [a_csv; b_csv]) = Ok tt /\
  diagnostics page = [] /\
  flat_map (fun ev => match ev with
                      | EvChart fig =>
                          [(title (fig_layout fig), map tr_mode (fig_data fig))]
                      | _ => []
                      end) page =
  [(Some "a.csv - v1 vs t", ["lines"]); (Some "b.csv - v2 vs t", ["markers"])].
Proof. vm_compute. repeat split. Qed.

(** A lone file of an unsupported type: one diagnostic, and the run ends
    in the exception of [pd.concat]. *)
Example unsupported_alone_scenario :
  main (pd := sample_decoders) (untouched false) [mkFile "data.txt" "log a"] =
  (Raise (ValueError "No objects to concatenate"),
   [EvTitle "NFR 25 DAQ Interface";
    EvWrite "Northwestern Formula Racing's DAQ data analysis tool. Upload your data using the sidebar.";
    EvError "Unsupported file type: data.txt"]).
Proof. reflexivity. Qed.

Lemma load_dataframes_unique_names_witness :
  NoDup (map name [a_csv; blank_csv; b_csv; upper_csv]) /\
  exists dataframes out,
    load_dataframes (pd := sample_decoders) [a_csv; blank_csv; b_csv; upper_csv]
      = (Ok dataframes, out) /\
    dataframes = [("a.csv", sample_a); ("b.csv", sample_b)] /\
    diagnostics out =
      ["Error loading blank.csv: No columns to parse from file";
       "Unsupported file type: DATA.CSV"].
Proof.
  assert (H : NoDup (map name [a_csv; blank_csv; b_csv; upper_csv])).
  { repeat constructor; simpl; intuition discriminate. }
  split; [exact H|].
  destruct (load_dataframes_unique_names (pd := sample_decoders) _ H)
    as (d & out & Hrun & Hd & _).
  exists d, out. split; [exact Hrun|].
  vm_compute in Hrun. injection Hrun as <- <-. split; reflexivity.
Defined.

Lemma load_dataframes_duplicate_names_witness :
  name a_csv = name b_again /\
  fails (pd := sample_decoders) a_csv = false /\
  fails (pd := sample_decoders) b_again = false /\
  exists dataframes out,
    load_dataframes (pd := sample_decoders) [a_csv; blank_csv; b_again]
      = (Ok dataframes, out) /\
    dataframes = [("a.csv", sample_b)] /\
    diagnostics out = ["Error loading blank.csv: No columns to parse from file"] /\
    List.length dataframes < 2.
Proof.
  repeat (split; [reflexivity|]).
  destruct (load_dataframes_duplicate_names (pd := sample_decoders)
              [] [blank_csv] [] a_csv b_again eq_refl eq_refl eq_refl)
    as (d & out & Hrun & _ & _ & _ & _ & Hlen).
  exists d, out. split; [exact Hrun|].
  split; [|split; [|exact Hlen]];
    vm_compute in Hrun; injection Hrun as <- <-; reflexivity.
Defined.

Lemma load_dataframes_unsupported_extension_witness :
  In upper_csv [a_csv; upper_csv] /\
  (forall stem, name upper_csv <> stem +++ ".csv") /\
  (forall stem, name upper_csv <> stem +++ ".xlsx") /\
  exists dataframes out,
    load_dataframes (pd := sample_decoders) [a_csv; upper_csv]
      = (Ok dataframes, out) /\
    In "Unsupported file type: DATA.CSV" (diagnostics out) /\
    dict_get dataframes "DATA.CSV" = None.
Proof.
  assert (Hin : In upper_csv [a_csv; upper_csv]) by (right; left; reflexivity).
  assert (Hc : forall stem, name upper_csv <> stem +++ ".csv").
  { intros stem E.
    assert (F : endswith (name upper_csv) ".csv" = true)
      by (apply endswith_spec; exists stem; exact E).
    vm_compute in F. discriminate F. }
  assert (Hx : forall stem, name upper_csv <> stem +++ ".xlsx").
  { intros stem E.
    assert (F : endswith (name upper_csv) ".xlsx" = true)
      by (apply endswith_spec; exists stem; exact E).
    vm_compute in F. discriminate F. }
  split; [exact Hin|]. split; [exact Hc|]. split; [exact Hx|].
  destruct (load_dataframes_unsupported_extension (pd := sample_decoders)
              [a_csv; upper_csv] upper_csv Hin Hc Hx)
    as (d & out & Hrun & _ & Hdiag & Hget & _).
  exists d, out. split; [exact Hrun|]. split; [exact Hdiag | exact Hget].
Defined.

Lemma main_raises_without_datasets_witness :
  [blank_csv; upper_csv] <> [] /\
  (forall f, In f [blank_csv; upper_csv] ->
             fails (pd := sample_decoders) f = true) /\
  main (pd := sample_decoders) (untouched true) [blank_csv; upper_csv] =
    (Raise (ValueError "No objects to concatenate"),
     [EvTitle "NFR 25 DAQ Interface";
      EvWrite "Northwestern Formula Racing's DAQ data analysis tool. Upload your data using the sidebar.";
      EvError "Error loading blank.csv: No columns to parse from file";
      EvError "Unsupported file type: DATA.CSV"]).
Proof.
  assert (Hne : [blank_csv; upper_csv] <> []) by discriminate.
  assert (Hall : forall f, In f [blank_csv; upper_csv] ->
                           fails (pd := sample_decoders) f = true).
  { intros f [<-|[<-|[]]]; reflexivity. }
  split; [exact Hne|]. split; [exact Hall|].
  exact (proj2 (main_raises_without_datasets (pd := sample_decoders)
                  (untouched true) [blank_csv; upper_csv] Hne Hall)).
Defined.

Lemma plot_data_unsupported_mode_witness :
  Some "Bar Plot" <> Some "Line Plot" /\
  Some "Bar Plot" <> Some "Scatter Plot" /\
  plot_data sample_a (Some "t") (Some "v1") "a.csv - v1 vs t" (Some "Bar Plot") =
    (Ok (go_Figure []), [EvError "Unsupported plot type: Bar Plot"]).
Proof.
  assert (H1 : Some "Bar Plot" <> Some "Line Plot") by discriminate.
  assert (H2 : Some "Bar Plot" <> Some "Scatter Plot") by discriminate.
  split; [exact H1|]. split; [exact H2|].
  exact (proj1 (plot_data_unsupported_mode sample_a (Some "t") (Some "v1")
                  "a.csv - v1 vs t" (Some "Bar Plot") H1 H2)).
Defined.

Lemma plot_data_line_vs_scatter_witness :
  In "t" (columns sample_a) /\ In "v1" (columns sample_a) /\
  exists line scatter,
    plot_data sample_a (Some "t") (Some "v1") "a.csv - v1 vs t"
      (Some "Line Plot") = (Ok line, []) /\
    plot_data sample_a (Some "t") (Some "v1") "a.csv - v1 vs t"
      (Some "Scatter Plot") = (Ok scatter, []) /\
    map tr_x (fig_data line) = [[Num 0; Num 1; Num 2; Num 3; Num 4]] /\
    map tr_x (fig_data scatter) = map tr_x (fig_data line) /\
    map tr_y (fig_data scatter) = map tr_y (fig_data line) /\
    map tr_mode (fig_data line) = ["lines"] /\
    map tr_mode (fig_data scatter) = ["markers"] /\
    fig_layout line = fig_layout scatter.
Proof.
  assert (Hx : In "t" (columns sample_a)) by (left; reflexivity).
  assert (Hy : In "v1" (columns sample_a)) by (right; left; reflexivity).
  split; [exact Hx|]. split; [exact Hy|].
  destruct (plot_data_line_vs_scatter sample_a "t" "v1" "a.csv - v1 vs t" Hx Hy)
    as (xs & ys & line & scatter & Gx & _ & Gy & _ & Hl & Hs & Dl & Ds & Hlay & _).
  exists line, scatter.
  split; [exact Hl|]. split; [exact Hs|].
  rewrite Dl, Ds. vm_compute in Gx. injection Gx as <-.
  repeat (split; [reflexivity|]). exact Hlay.
Defined.

Lemma plot_data_supported_theme_witness :
  exists fig,
    plot_data sample_b (Some "t") (Some "v2") "b.csv - v2 vs t"
      (Some "Scatter Plot") = (Ok fig, []) /\
    dark_theme (fig_layout fig).
Proof.
  eexists. split; [reflexivity|].
  apply (plot_data_supported_theme sample_b (Some "t") (Some "v2")
           "b.csv - v2 vs t" (Some "Scatter Plot") _ []).
  - right; reflexivity.
  - reflexivity.
Defined.

Lemma plot_columns_exist_witness :
  load_dataframes (pd := sample_decoders) [a_csv; b_csv] =
    (Ok [("a.csv", sample_a); ("b.csv", sample_b)], []) /\
  forall fig,
    In (EvChart fig) (snd (main (pd := sample_decoders) two_plots [a_csv; b_csv])) ->
    exists nm x y mode df,
      chart_of [("a.csv", sample_a); ("b.csv", sample_b)] fig nm x y mode /\
      dict_get [("a.csv", sample_a); ("b.csv", sample_b)] nm = Some df /\
      In x (columns df) /\ In y (columns df).
Proof.
  split; [reflexivity|].
  exact (proj2 (plot_columns_exist (pd := sample_decoders) two_plots
                  [a_csv; b_csv] [("a.csv", sample_a); ("b.csv", sample_b)] []
                  eq_refl)).
Defined.

(** C3, as stated, fails: for a workbook whose sheet is empty the table
    has no column, both select boxes yield [None], the entry of
    [plot_configs] names no column of its table, and drawing it ends the
    run with [KeyError]. *)
Lemma plot_config_without_columns :
  let dataframes := [("empty.xlsx", empty_sheet)] in
  load_dataframes (pd := sample_decoders) [empty_xlsx] = (Ok dataframes, []) /\
  (exists c out,
      for_each (configure_slot (untouched true) dataframes) (seq 0 1) [] =
        (Ok [c], out) /\
      cfg_file_name c = Some "empty.xlsx" /\
      cfg_x_axis c = None /\ cfg_y_axis c = None /\
      ~ columns_exist c) /\
  fst (main (pd := sample_decoders) (untouched true) [empty_xlsx]) =
    Raise (KeyError None).
Proof.
  split; [reflexivity|]. split; [|reflexivity].
  eexists. eexists. split; [reflexivity|]. simpl.
  repeat (split; [reflexivity|]).
  intros [x [y [Hx _]]]. discriminate Hx.
Qed.

(* ================================================================== *)
(** * Further properties of the loader, the renderer and the script   *)
(* ================================================================== *)

(* ------------------------------------------------------------------ *)
(** ** Loops and pages                                                *)
(* ------------------------------------------------------------------ *)

Lemma for_each_app {A S} (body : S -> A -> Script S) (xs ys : list A) :
  forall acc,
    for_each body (xs ++ ys) acc =
    bind (for_each body xs acc) (for_each body ys).
Proof.
  induction xs as [|x xs IH]; intros acc; simpl.
  - unfold ret, bind. now destruct (for_each body ys acc).
  - destruct (body acc x) as [[acc'|e] out1]; simpl; [|reflexivity].
    rewrite IH. destruct (for_each body xs acc') as [[acc''|e] out2]; simpl.
    + destruct (for_each body ys acc'') as [r out3]. now rewrite app_assoc.
    + reflexivity.
Qed.

Lemma for_each_ext {A S} (body body' : S -> A -> Script S) (xs : list A) :
  (forall acc x, In x xs -> body acc x = body' acc x) ->
  forall acc, for_each body xs acc = for_each body' xs acc.
Proof.
  induction xs as [|x xs IH]; intros H acc; simpl; [reflexivity|].
  rewrite (H acc x (or_introl eq_refl)).
  destruct (body' acc x) as [[acc'|e] out1]; simpl; [|reflexivity].
  rewrite IH; [reflexivity|]. intros a y Hy. apply H. now right.
Qed.

Lemma diagnostics_app (a b : list ui_event) :
  diagnostics (a ++ b) = diagnostics a ++ diagnostics b.
Proof.
  induction a as [|ev a IH]; simpl; [reflexivity|].
  destruct ev; simpl; now rewrite IH.
Qed.

Lemma charts_app (a b : list ui_event) : charts (a ++ b) = charts a ++ charts b.
Proof. apply flat_map_app. Qed.

Lemma previews_app (a b : list ui_event) :
  previews (a ++ b) = previews a ++ previews b.
Proof. apply flat_map_app. Qed.

Lemma subheaders_app (a b : list ui_event) :
  subheaders (a ++ b) = subheaders a ++ subheaders b.
Proof. apply flat_map_app. Qed.

Lemma charts_errors (msgs : list string) : charts (map EvError msgs) = [].
Proof. induction msgs; simpl; auto. Qed.

Lemma previews_errors (msgs : list string) : previews (map EvError msgs) = [].
Proof. induction msgs; simpl; auto. Qed.

Lemma subheaders_errors (msgs : list string) : subheaders (map EvError msgs) = [].
Proof. induction msgs; simpl; auto. Qed.

Lemma last_error_In {A} (l : list A) (x : A) : last_error l = Some x -> In x l.
Proof.
  unfold last_error. intros H. apply in_rev.
  destruct (rev l) as [|y r]; [discriminate|].
  injection H as ->. now left.
Qed.

Lemma last_error_None {A} (l : list A) : last_error l = None -> l = [].
Proof.
  unfold last_error. intros H.
  destruct (rev l) as [|y r] eqn:E; [|discriminate].
  apply (f_equal (@rev A)) in E. now rewrite rev_involutive in E.
Qed.

(* ------------------------------------------------------------------ *)
(** ** More on [load_dataframes]                                      *)
(* ------------------------------------------------------------------ *)

Lemma first_seen_length (labels : list string) :
  List.length (first_seen labels) <= List.length labels.
Proof.
  induction labels as [|l r IH]; simpl; [lia|].
  pose proof (filter_length_le (fun y => negb (String.eqb y l)) (first_seen r)).
  lia.
Qed.

Section LoaderMore.
Context {pd : Decoders}.

Lemma load_keys_first_seen files :
  keys (fold_left load_step files []) = first_seen (map name (loaded files)).
Proof.
  rewrite load_keys, unique_labels_first_seen. simpl. now apply filter_all.
Qed.

Lemma load_get files nm :
  dict_get (fold_left load_step files []) nm = last_error (loaded_as nm files).
Proof.
  rewrite load_lookup. now destruct (last_error (loaded_as nm files)).
Qed.

Lemma loaded_as_In nm files df :
  In df (loaded_as nm files) <->
  exists f, In f files /\ name f = nm /\ loads f = Some df.
Proof.
  unfold loaded_as. rewrite in_flat_map. split.
  - intros [f [Hf Hdf]]. exists f. split; [assumption|].
    destruct (String.eqb_spec (name f) nm) as [E|NE]; [|destruct Hdf].
    split; [assumption|]. unfold entry in Hdf.
    destruct (loads f); simpl in Hdf; [|destruct Hdf].
    destruct Hdf as [->|[]]. reflexivity.
  - intros [f [Hf [E Hl]]]. exists f. split; [assumption|].
    rewrite <- E, String.eqb_refl. unfold entry. rewrite Hl. now left.
Qed.

Lemma loads_recognized f df :
  loads f = Some df ->
  exists stem, name f = stem +++ ".csv" \/ name f = stem +++ ".xlsx".
Proof.
  unfold loads.
  destruct (endswith (name f) ".csv") eqn:Ec.
  - intros _. apply endswith_spec in Ec as [stem E]. exists stem. now left.
  - destruct (endswith (name f) ".xlsx") eqn:Ex; [|discriminate].
    intros _. apply endswith_spec in Ex as [stem E]. exists stem. now right.
Qed.

(** X1. Whatever the files are and whatever the decoders do,
    [load_dataframes] returns normally. No key occurs twice; the keys are
    exactly the names under which some uploaded file loads, and each has
    the suffix ".csv" or ".xlsx"; every table of the mapping was decoded
    from an uploaded file of that name; there is one diagnostic for each
    file that fails, so entries and diagnostics together never exceed the
    number of files. *)
Theorem load_dataframes_never_raises (files : list UploadedFile) :
  exists dataframes out,
    load_dataframes files = (Ok dataframes, out) /\
    NoDup (keys dataframes) /\
    (forall nm, In nm (keys dataframes) <->
                exists f, In f files /\ name f = nm /\ fails f = false) /\
    (forall nm df, dict_get dataframes nm = Some df ->
                   exists f, In f files /\ name f = nm /\ loads f = Some df) /\
    (forall nm, In nm (keys dataframes) ->
                exists stem, nm = stem +++ ".csv" \/ nm = stem +++ ".xlsx") /\
    List.length (diagnostics out) = List.length (filter fails files) /\
    List.length dataframes + List.length (diagnostics out) <= List.length files.
Proof.
  exists (fold_left load_step files []), (map EvError (flat_map failure files)).
  rewrite diagnostics_errors.
  assert (Hin : forall nm, In nm (keys (fold_left load_step files [])) <->
                  exists f, In f files /\ name f = nm /\ fails f = false).
  { intros nm. rewrite load_keys_first_seen, first_seen_In, in_map_iff.
    unfold loaded. split.
    - intros [f [E Hf]]. apply filter_In in Hf as [Hf Hok].
      exists f. repeat split; try assumption. now apply negb_true_iff.
    - intros [f [Hf [E Hok]]]. exists f. split; [assumption|].
      apply filter_In. split; [assumption | now apply negb_true_iff]. }
  assert (Hlen : List.length (flat_map failure files) =
                 List.length (filter fails files)).
  { apply (Forall2_length (failures_attributed files)). }
  split; [apply load_dataframes_eq|].
  split; [rewrite load_keys_first_seen; apply first_seen_NoDup|].
  split; [exact Hin|].
  split.
  { intros nm df H. rewrite load_get in H. apply last_error_In in H.
    now apply loaded_as_In. }
  split.
  { intros nm H. apply Hin in H as [f [_ [<- Hok]]].
    unfold fails in Hok. destruct (loads f) as [df|] eqn:E; [|discriminate].
    eapply loads_recognized; eassumption. }
  split; [exact Hlen|].
  rewrite Hlen.
  rewrite <- (length_map fst (fold_left load_step files [])).
  fold (keys (fold_left load_step files [])). rewrite load_keys_first_seen.
  pose proof (first_seen_length (map name (loaded files))) as H1.
  rewrite length_map in H1. unfold loaded in *.
  pose proof (filter_length fails files) as H2. lia.
Qed.

(** X2. Loading two batches in one call is loading the first and then
    the second: the diagnostics are those of the first batch followed by
    those of the second, and a name maps to its table from the second
    batch when the second batch loads one under it, and to its table
    from the first batch otherwise. *)
Theorem load_dataframes_app (batch1 batch2 : list UploadedFile) :
  exists d1 out1 d2 out2 d,
    load_dataframes batch1 = (Ok d1, out1) /\
    load_dataframes batch2 = (Ok d2, out2) /\
    load_dataframes (batch1 ++ batch2) = (Ok d, out1 ++ out2) /\
    forall nm,
      dict_get d nm =
      match dict_get d2 nm with
      | Some df => Some df
      | None => dict_get d1 nm
      end.
Proof.
  exists (fold_left load_step batch1 []),
         (map EvError (flat_map failure batch1)),
         (fold_left load_step batch2 []),
         (map EvError (flat_map failure batch2)),
         (fold_left load_step (batch1 ++ batch2) []).
  split; [apply load_dataframes_eq|].
  split; [apply load_dataframes_eq|].
  split.
  { rewrite load_dataframes_eq, flat_map_app, map_app. reflexivity. }
  intros nm. rewrite !load_get, loaded_as_app, last_error_app. reflexivity.
Qed.

End LoaderMore.

(** X3. The decoder is chosen by the name alone, ".csv" first: a file
    whose name ends with ".csv" is given to [pd.read_csv] only, another
    file whose name ends with ".xlsx" to [pd.read_excel] only, and any
    other file to neither. So two pairs of decoders that agree on those
    calls give the same mapping and the same diagnostics. *)
Theorem load_dataframes_dispatch (pd pd' : Decoders) (files : list UploadedFile) :
  (forall f, In f files -> endswith (name f) ".csv" = true ->
             @read_csv pd f = @read_csv pd' f) ->
  (forall f, In f files -> endswith (name f) ".csv" = false ->
             endswith (name f) ".xlsx" = true ->
             @read_excel pd f = @read_excel pd' f) ->
  @load_dataframes pd files = @load_dataframes pd' files.
Proof.
  intros Hcsv Hxlsx. unfold load_dataframes.
  apply for_each_ext. intros acc f Hf. unfold load_one.
  destruct (endswith (name f) ".csv") eqn:Ec.
  - now rewrite (Hcsv f Hf Ec).
  - destruct (endswith (name f) ".xlsx") eqn:Ex; [|reflexivity].
    now rewrite (Hxlsx f Hf Ec Ex).
Qed.

(* ------------------------------------------------------------------ *)
(** ** More on [plot_data]                                            *)
(* ------------------------------------------------------------------ *)




(** X5. [plot_data] returns a figure exactly when the mode is not one
    of the two supported ones, or both columns are columns of the table;
    in every other case it raises. *)
Theorem plot_data_returns_iff (data : DataFrame) (x_axis y_axis : pyval)
    (plot_title : string) (plot_type : pyval) :
  (exists fig out,
      plot_data data x_axis y_axis plot_title plot_type = (Ok fig, out)) <->
  (plot_type <> Some "Line Plot" /\ plot_type <> Some "Scatter Plot") \/
  (exists x y, x_axis = Some x /\ y_axis = Some y /\
               In x (columns data) /\ In y (columns data)).
Proof.
  split.
  - intros [fig [out H]].
    destruct (pyval_eqb plot_type (Some "Line Plot")) eqn:El.
    + right. apply pyval_eqb_eq in El.
      destruct (plot_data_supported_inv _ _ _ _ _ _ _ (or_introl El) H)
        as [x [y [xs [ys [Hx [Hy [Gx Gy]]]]]]].
      exists x, y. repeat split; try assumption; eapply get_in_columns; eassumption.
    + destruct (pyval_eqb plot_type (Some "Scatter Plot")) eqn:Es.
      * right. apply pyval_eqb_eq in Es.
        destruct (plot_data_supported_inv _ _ _ _ _ _ _ (or_intror Es) H)
          as [x [y [xs [ys [Hx [Hy [Gx Gy]]]]]]].
        exists x, y. repeat split; try assumption; eapply get_in_columns; eassumption.
      * left. split; intros E; apply pyval_eqb_eq in E; congruence.
  - intros [[Hl Hs]|[x [y [-> [-> [Hx Hy]]]]]].
    + unfold plot_data.
      rewrite (pyval_eqb_neq _ _ Hl), (pyval_eqb_neq _ _ Hs). simpl. eauto.
    + destruct (in_columns_get data x Hx) as [xs [Gx _]].
      destruct (in_columns_get data y Hy) as [ys [Gy _]].
      destruct (pyval_eqb plot_type (Some "Line Plot")) eqn:El.
      * apply pyval_eqb_eq in El.
        rewrite (plot_data_supported data x y xs ys plot_title plot_type
                   "lines" (or_introl (conj El eq_refl)) Gx Gy). eauto.
      * destruct (pyval_eqb plot_type (Some "Scatter Plot")) eqn:Es.
        -- apply pyval_eqb_eq in Es.
           rewrite (plot_data_supported data x y xs ys plot_title plot_type
                      "markers" (or_intror (conj Es eq_refl)) Gx Gy). eauto.
        -- unfold plot_data. rewrite El, Es. simpl. eauto.
Qed.

(* ------------------------------------------------------------------ *)
(** ** The keys of the select boxes                                   *)
(* ------------------------------------------------------------------ *)

Lemma str_of_nat_inj (i j : nat) : str_of_nat i = str_of_nat j -> i = j.
Proof.
  unfold str_of_nat. intros H.
  apply (f_equal NilEmpty.uint_of_string) in H.
  rewrite !NilEmpty.usu in H. injection H as H.
  apply (f_equal Nat.of_uint) in H. now rewrite !Unsigned.of_to in H.
Qed.

Lemma append_inj_l (p a b : string) : p +++ a = p +++ b -> a = b.
Proof.
  induction p as [|c p IH]; simpl; intros H; [assumption|].
  injection H as H. now apply IH.
Qed.

Lemma slot_key_inv (p q : string) (i j : nat) :
  In p slot_key_prefixes -> In q slot_key_prefixes ->
  p +++ str_of_nat i = q +++ str_of_nat j -> p = q /\ i = j.
Proof.
  unfold slot_key_prefixes. simpl.
  intros [<-|[<-|[<-|[<-|[]]]]] [<-|[<-|[<-|[<-|[]]]]] H;
    try (simpl in H; discriminate H);
    (split; [reflexivity|]; apply append_inj_l in H; now apply str_of_nat_inj).
Qed.

Lemma slot_key_not_count (p : string) (i : nat) :
  In p slot_key_prefixes -> p +++ str_of_nat i <> "Number of Plots".
Proof.
  unfold slot_key_prefixes. simpl.
  intros [<-|[<-|[<-|[<-|[]]]]] H; simpl in H; discriminate H.
Qed.

Lemma slot_prefixes_NoDup : NoDup slot_key_prefixes.
Proof.
  unfold slot_key_prefixes.
  repeat constructor; simpl; intuition discriminate.
Qed.

Lemma slot_keys_NoDup (start n : nat) :
  NoDup (flat_map (fun i => map (fun p => p +++ str_of_nat i) slot_key_prefixes)
                  (seq start n)).
Proof.
  revert start; induction n as [|n IH]; intros start; cbn [seq flat_map];
    [constructor|].
  apply NoDup_app.
  - apply NoDup_map_NoDup_ForallPairs; [|apply slot_prefixes_NoDup].
    intros p q Hp Hq E. now destruct (slot_key_inv p q start start Hp Hq E).
  - apply IH.
  - intros key Hkey H.
    apply in_map_iff in Hkey as [p [<- Hp]].
    apply in_flat_map in H as [j [Hj H]]. apply in_seq in Hj.
    apply in_map_iff in H as [q [E Hq]].
    destruct (slot_key_inv q p j start Hq Hp E) as [_ ->]. lia.
Qed.

(** X6. The select boxes of the script have pairwise distinct keys:
    for any number of slots, the keys "file_name_i", "x_axis_i",
    "y_axis_i" and "plot_type_i" of all the slots, together with the
    label of the plot-count box, form a list without repetition. *)
Theorem widget_keys_distinct (n : nat) :
  NoDup ("Number of Plots" ::
         flat_map (fun i => map (fun p => p +++ str_of_nat i) slot_key_prefixes)
                  (seq 0 n)).
Proof.
  constructor.
  - intros H. apply in_flat_map in H as [i [_ H]].
    apply in_map_iff in H as [p [E Hp]].
    exact (slot_key_not_count p i Hp E).
  - apply slot_keys_NoDup.
Qed.

(* ------------------------------------------------------------------ *)
(** ** The loop that fills [plot_configs]                             *)
(* ------------------------------------------------------------------ *)

Lemma picked_pick_other (ui : Widgets) (key key' : string) (k : nat) :
  key' <> key -> picked (pick ui key k) key' = picked ui key'.
Proof.
  intros H. unfold pick. cbn [picked].
  destruct (String.eqb_spec key' key); [contradiction | reflexivity].
Qed.

Lemma selectbox_default {A} (options : list A) :
  selectbox options 0 None = hd_error options.
Proof. now destruct options. Qed.

Lemma num_plots_range (ui : Widgets) :
  exists n, num_plots_of ui = Some n /\ 1 <= n <= 4 /\
            (picked ui "Number of Plots" = None -> n = 2).
Proof.
  unfold num_plots_of, selectbox.
  destruct (picked ui "Number of Plots") as [[|[|[|[|k]]]]|]; simpl.
  - exists 1. repeat split; try lia; discriminate.
  - exists 2. repeat split; try lia; discriminate.
  - exists 3. repeat split; try lia; discriminate.
  - exists 4. repeat split; try lia; discriminate.
  - exists 2. destruct k; simpl; repeat split; try lia; discriminate.
  - exists 2. repeat split; lia.
Qed.

Section ConfigureMore.
Variable ui : Widgets.
Variable dataframes : dict DataFrame.

(** On a mapping that is not empty a slot always finds its table. *)
Lemma configure_slot_total plot_configs i :
  dataframes <> [] ->
  exists c,
    configure_slot ui dataframes plot_configs i =
      (Ok (plot_configs ++ [c]), [slot_subheader i]) /\
    slot_entry ui dataframes i c.
Proof.
  intros Hne. rewrite configure_slot_eq. cbv zeta.
  assert (Hk : keys dataframes <> []).
  { destruct dataframes; [congruence | discriminate]. }
  destruct (selectbox_first (keys dataframes)
              (picked ui ("file_name_" +++ str_of_nat i)) Hk) as [nm Hnm].
  assert (Hin : In nm (keys dataframes)) by (eapply selectbox_In; exact Hnm).
  destruct (dict_get dataframes nm) as [df|] eqn:G.
  2:{ apply dict_get_None in G. contradiction. }
  assert (Hget : getitem dataframes
                   (selectbox (keys dataframes) 0
                      (picked ui ("file_name_" +++ str_of_nat i))) = Ok df).
  { rewrite Hnm. unfold getitem. now rewrite G. }
  rewrite Hget. eexists. split; [reflexivity|].
  unfold slot_entry.
  cbn [cfg_file_name cfg_x_axis cfg_y_axis cfg_plot_type cfg_df cfg_title].
  repeat split; try reflexivity. exact Hget.
Qed.

Lemma configure_loop_total_from slots : forall acc,
  dataframes <> [] ->
  exists cfgs,
    for_each (configure_slot ui dataframes) slots acc =
      (Ok (acc ++ cfgs), map slot_subheader slots) /\
    Forall2 (slot_entry ui dataframes) slots cfgs.
Proof.
  induction slots as [|i slots IH]; intros acc Hne.
  - exists []. split; [simpl; now rewrite app_nil_r | constructor].
  - destruct (configure_slot_total acc i Hne) as [c [Hc He]].
    destruct (IH (acc ++ [c]) Hne) as [cfgs [Hrun Hall]].
    exists (c :: cfgs). split; [|now constructor].
    cbn [for_each]. rewrite (bind_ok _ _ _ _ Hc), Hrun. simpl.
    now rewrite <- app_assoc.
Qed.

(** X7. On a mapping with at least one table the configuration loop
    never raises. It shows the subheader "Plot i+1" of each slot and
    returns one entry for each slot, in slot order; the entry of slot [i]
    is read from the four select boxes keyed with [i], its table is the
    one the mapping holds under the chosen source, its columns are chosen
    among the columns of that table, and its title is derived from them. *)
Theorem configure_loop_total (slots : list nat) :
  dataframes <> [] ->
  exists plot_configs,
    for_each (configure_slot ui dataframes) slots [] =
      (Ok plot_configs, map slot_subheader slots) /\
    List.length plot_configs = List.length slots /\
    Forall2 (slot_entry ui dataframes) slots plot_configs.
Proof.
  intros Hne.
  destruct (configure_loop_total_from slots [] Hne) as [cfgs [Hrun Hall]].
  exists cfgs. split; [exact Hrun|]. split; [|exact Hall].
  symmetry. exact (Forall2_length Hall).
Qed.

(** X8. The slots are independent: picking in a select box of another
    slot, or in the plot-count box, leaves the entry that slot [i]
    builds, and what it shows, as they were. *)
Theorem configure_slot_independent (plot_configs : list PlotConfig)
    (i j k : nat) (p : string) :
  In p slot_key_prefixes -> i <> j ->
  configure_slot (pick ui (p +++ str_of_nat j) k) dataframes plot_configs i =
    configure_slot ui dataframes plot_configs i /\
  configure_slot (pick ui "Number of Plots" k) dataframes plot_configs i =
    configure_slot ui dataframes plot_configs i.
Proof.
  intros Hp Hij.
  assert (Hother : forall q, In q slot_key_prefixes ->
                     picked (pick ui (p +++ str_of_nat j) k) (q +++ str_of_nat i) =
                     picked ui (q +++ str_of_nat i)).
  { intros q Hq. apply picked_pick_other. intros E.
    destruct (slot_key_inv q p i j Hq Hp E) as [_ Eij]. contradiction. }
  assert (Hcount : forall q, In q slot_key_prefixes ->
                     picked (pick ui "Number of Plots" k) (q +++ str_of_nat i) =
                     picked ui (q +++ str_of_nat i)).
  { intros q Hq. apply picked_pick_other. now apply slot_key_not_count. }
  assert (H1 : In "file_name_" slot_key_prefixes) by (simpl; tauto).
  assert (H2 : In "x_axis_" slot_key_prefixes) by (simpl; tauto).
  assert (H3 : In "y_axis_" slot_key_prefixes) by (simpl; tauto).
  assert (H4 : In "plot_type_" slot_key_prefixes) by (simpl; tauto).
  split; rewrite !configure_slot_eq; cbv zeta.
  - now rewrite (Hother _ H1), (Hother _ H2), (Hother _ H3), (Hother _ H4).
  - now rewrite (Hcount _ H1), (Hcount _ H2), (Hcount _ H3), (Hcount _ H4).
Qed.
End ConfigureMore.

Lemma default_loop_from (pressed : bool) (nm : string) (df : DataFrame)
    (rest : dict DataFrame) (slots : list nat) : forall acc,
  for_each (configure_slot (untouched pressed) ((nm, df) :: rest)) slots acc =
  (Ok (acc ++ map (fun _ => default_entry nm df) slots),
   map slot_subheader slots).
Proof.
  induction slots as [|i slots IH]; intros acc.
  - simpl. now rewrite app_nil_r.
  - assert (Hc : configure_slot (untouched pressed) ((nm, df) :: rest) acc i =
                 (Ok (acc ++ [default_entry nm df]), [slot_subheader i])).
    { rewrite configure_slot_eq. cbv zeta. unfold untouched. cbn [picked].
      rewrite !selectbox_default. cbn [keys map fst hd_error].
      unfold getitem. cbn [dict_get]. rewrite String.eqb_refl.
      reflexivity. }
    cbn [for_each]. rewrite (bind_ok _ _ _ _ Hc), IH. simpl.
    now rewrite <- app_assoc.
Qed.

(** X9. With no select box touched, every slot takes the first table
    of the mapping, plots its first column against the same first column
    as a line, and is titled accordingly; when that table has no column
    both columns are [None]. *)
Theorem configure_defaults (pressed : bool) (nm : string) (df : DataFrame)
    (rest : dict DataFrame) (slots : list nat) :
  for_each (configure_slot (untouched pressed) ((nm, df) :: rest)) slots [] =
    (Ok (map (fun _ => default_entry nm df) slots), map slot_subheader slots) /\
  cfg_x_axis (default_entry nm df) = hd_error (columns df) /\
  cfg_y_axis (default_entry nm df) = cfg_x_axis (default_entry nm df) /\
  cfg_plot_type (default_entry nm df) = Some "Line Plot" /\
  (forall c, hd_error (columns df) = Some c ->
             cfg_title (default_entry nm df) = nm +++ " - " +++ c +++ " vs " +++ c).
Proof.
  split; [apply (default_loop_from pressed nm df rest slots [])|].
  repeat split. intros c Hc. unfold default_entry, derived_title.
  cbn [cfg_title]. now rewrite Hc.
Qed.

(* ------------------------------------------------------------------ *)
(** ** The loop that draws the plots                                  *)
(* ------------------------------------------------------------------ *)

Lemma slot_entry_configured ui dataframes i c :
  slot_entry ui dataframes i c -> configured dataframes c.
Proof.
  intros [Hf [Hg [Hx [Hy [Hm Ht]]]]].
  apply getitem_ok in Hg as [nm [Hnm Hget]].
  unfold configured. split; [now exists nm|].
  split; [rewrite Hm; apply selectbox_plot_type|].
  split.
  { intros Hne. unfold columns_exist.
    destruct (selectbox_first (columns (cfg_df c))
                (picked ui ("x_axis_" +++ str_of_nat i)) Hne) as [x Ex].
    destruct (selectbox_first (columns (cfg_df c))
                (picked ui ("y_axis_" +++ str_of_nat i)) Hne) as [y Ey].
    exists x, y. rewrite Hx, Hy.
    split; [exact Ex|]. split; [exact Ey|].
    split; eapply selectbox_In; eassumption. }
  split; [|exact Ht].
  intros E. rewrite Hx, Hy, E. split; apply selectbox_empty.
Qed.

(** A configured slot either draws one chart or raises and shows
    nothing, according to whether its columns exist. *)
Lemma render_slot_cases dataframes c :
  configured dataframes c ->
  (exists fig, render_slot tt c = (Ok tt, [EvChart fig]) /\ columns_exist c) \/
  (exists e, render_slot tt c = (Raise e, []) /\ ~ columns_exist c).
Proof.
  intros [_ [Hmode _]].
  assert (exists mode,
             cfg_plot_type c = Some "Line Plot" /\ mode = "lines" \/
             cfg_plot_type c = Some "Scatter Plot" /\ mode = "markers")
    as [mode Hm].
  { destruct Hmode; [exists "lines" | exists "markers"]; tauto. }
  unfold render_slot.
  destruct (plot_data (cfg_df c) (cfg_x_axis c) (cfg_y_axis c) (cfg_title c)
              (cfg_plot_type c)) as [[fig|e] out] eqn:E.
  - left.
    destruct (plot_data_supported_inv _ _ _ _ _ _ _ Hmode E)
      as [x [y [xs [ys [Hx [Hy [Gx Gy]]]]]]].
    rewrite Hx, Hy in E.
    rewrite (plot_data_supported _ x y xs ys _ _ mode Hm Gx Gy) in E.
    injection E as <- <-. eexists. split; [reflexivity|].
    exists x, y. repeat split; try assumption; eapply get_in_columns; eassumption.
  - right. exists e. split.
    + unfold plot_data in E.
      destruct Hmode as [Hl|Hs]; [rewrite Hl in E | rewrite Hs in E];
        simpl in E;
        destruct (getitem (cfg_df c) (cfg_x_axis c)); simpl in E;
        try (injection E as <- <-; reflexivity);
        destruct (getitem (cfg_df c) (cfg_y_axis c)); simpl in E;
        try discriminate; injection E as <- <-; reflexivity.
    + intros [x [y [Hx [Hy [Ix Iy]]]]].
      destruct (in_columns_get _ _ Ix) as [xs [Gx _]].
      destruct (in_columns_get _ _ Iy) as [ys [Gy _]].
      rewrite Hx, Hy in E.
      rewrite (plot_data_supported _ x y xs ys _ _ mode Hm Gx Gy) in E.
      discriminate E.
Qed.

(** The page of the drawing loop is a list of charts, one for each slot
    drawn before the loop ends. *)
Lemma render_loop_page dataframes plot_configs :
  Forall (configured dataframes) plot_configs ->
  exists figs,
    snd (for_each render_slot plot_configs tt) = map EvChart figs /\
    List.length figs <= List.length plot_configs /\
    (fst (for_each render_slot plot_configs tt) = Ok tt ->
     List.length figs = List.length plot_configs) /\
    (Forall columns_exist plot_configs ->
     fst (for_each render_slot plot_configs tt) = Ok tt).
Proof.
  induction plot_configs as [|c cs IH]; intros Hall.
  - exists []. simpl. repeat split; auto.
  - inversion Hall as [|? ? Hc Hcs]; subst.
    destruct (IH Hcs) as [figs [Hout [Hle [Hok Hex]]]].
    cbn [for_each].
    destruct (render_slot_cases dataframes c Hc)
      as [[fig [E Hcols]]|[e [E Hno]]].
    + exists (fig :: figs). rewrite (bind_ok _ _ _ _ E). cbn [fst snd].
      rewrite Hout. simpl. repeat split.
      * lia.
      * intros H. now rewrite (Hok H).
      * intros H. inversion H; subst. now apply Hex.
    + exists []. rewrite E. simpl. repeat split.
      * lia.
      * discriminate.
      * intros H. inversion H; subst. contradiction.
Qed.

(** X10. A slot that cannot be drawn ends the drawing loop: when the
    slots before it are drawn and its X or Y column is not a column of
    its table, the loop raises, the page holds one chart for each of the
    slots before it, and none of the slots after it is drawn. *)
Theorem render_stops_at_first_failure (dataframes : dict DataFrame)
    (before after : list PlotConfig) (c : PlotConfig) :
  Forall (configured dataframes) before -> Forall columns_exist before ->
  configured dataframes c -> ~ columns_exist c ->
  exists e figs,
    for_each render_slot (before ++ c :: after) tt = (Raise e, map EvChart figs) /\
    List.length figs = List.length before /\
    for_each render_slot before tt = (Ok tt, map EvChart figs).
Proof.
  intros Hb Hbc Hc Hno.
  destruct (render_loop_page dataframes before Hb) as [figs [Hout [_ [Hlen Hok]]]].
  specialize (Hok Hbc). specialize (Hlen Hok).
  destruct (render_slot_cases dataframes c Hc) as [[fig [_ H]]|[e [E _]]];
    [contradiction|].
  assert (Hrun : for_each render_slot before tt = (Ok tt, map EvChart figs)).
  { destruct (for_each render_slot before tt) as [r out]. simpl in *. now subst. }
  exists e, figs. split; [|split; [exact Hlen | exact Hrun]].
  rewrite for_each_app, (bind_ok _ _ _ _ Hrun). cbn [for_each].
  rewrite E. simpl. now rewrite app_nil_r.
Qed.

(* ------------------------------------------------------------------ *)
(** ** The page of [main]                                             *)
(* ------------------------------------------------------------------ *)

Lemma preview_loop (d : dict DataFrame) :
  for_each preview d tt = (Ok tt, preview_of d).
Proof.
  unfold preview_of. induction d as [|item d IH]; [reflexivity|].
  cbn [for_each flat_map].
  assert (E : preview tt item =
              (Ok tt, [EvWrite (fst item); EvDataframe (snd item)]))
    by reflexivity.
  rewrite (bind_ok _ _ _ _ E), IH. reflexivity.
Qed.

Section MainMore.
Context {pd : Decoders}.
Variable ui : Widgets.

(** The run of [main] when at least one table is loaded. *)
Lemma main_page files dataframes diag :
  load_dataframes files = (Ok dataframes, diag) -> dataframes <> [] ->
  exists n plot_configs,
    num_plots_of ui = Some n /\
    for_each (configure_slot ui dataframes) (seq 0 n) [] =
      (Ok plot_configs, map slot_subheader (seq 0 n)) /\
    List.length plot_configs = n /\
    Forall (configured dataframes) plot_configs /\
    main ui files =
      (fst (drawing ui plot_configs),
       page_head ++ diag ++ preview_head ++ preview_of dataframes ++
       map slot_subheader (seq 0 n) ++ snd (drawing ui plot_configs)).
Proof.
  intros Hload Hne.
  destruct (num_plots_range ui) as [n [Hn _]].
  destruct (configure_loop_total_from ui dataframes (seq 0 n) [] Hne)
    as [cfgs [Hrun Hall]].
  cbn [app] in Hrun.
  exists n, cfgs. split; [exact Hn|]. split; [exact Hrun|].
  split; [now rewrite <- (Forall2_length Hall), length_seq|].
  split.
  { clear Hrun. induction Hall; constructor; [|assumption].
    eapply slot_entry_configured; eassumption. }
  destruct files as [|f files].
  { rewrite load_dataframes_eq in Hload. simpl in Hload.
    injection Hload as <- _. congruence. }
  destruct (pd_concat_nonempty (values dataframes)) as [combined Hc].
  { destruct dataframes; [congruence | discriminate]. }
  unfold main, configure_and_render, st_write, emit.
  unfold num_plots_of in Hn. rewrite Hn.
  rewrite (bind_ok _ _ tt _ eq_refl), (bind_ok _ _ tt _ eq_refl).
  rewrite (bind_ok _ _ _ _ Hload).
  unfold call at 1. rewrite Hc. rewrite (bind_ok _ _ combined [] eq_refl).
  rewrite (bind_ok _ _ tt _ eq_refl), (bind_ok _ _ tt _ eq_refl).
  rewrite (bind_ok _ _ _ _ (preview_loop dataframes)).
  unfold call, py_range. rewrite (bind_ok _ _ (seq 0 n) [] eq_refl).
  rewrite (bind_ok _ _ _ _ Hrun).
  unfold drawing, page_head, preview_head.
  destruct (clicked ui "Generate Plots"); cbn [fst snd ret];
    repeat rewrite <- app_assoc; reflexivity.
Qed.

(** The run of [main] when files are uploaded and no table is loaded. *)
Lemma main_page_empty f files diag :
  load_dataframes (f :: files) = (Ok [], diag) ->
  main ui (f :: files) =
    (Raise (ValueError "No objects to concatenate"), page_head ++ diag).
Proof.
  intros Hload. unfold main, st_write, emit.
  rewrite (bind_ok _ _ tt _ eq_refl), (bind_ok _ _ tt _ eq_refl).
  rewrite (bind_ok _ _ _ _ Hload). simpl. now rewrite app_nil_r.
Qed.

Lemma previews_preview_of (d : dict DataFrame) : previews (preview_of d) = values d.
Proof.
  unfold preview_of. induction d as [|item d IH]; [reflexivity|].
  cbn [flat_map]. rewrite previews_app, IH. reflexivity.
Qed.

Lemma previews_subheaders (slots : list nat) :
  previews (map slot_subheader slots) = [].
Proof. induction slots; simpl; auto. Qed.

Lemma previews_charts (figs : list Figure) : previews (map EvChart figs) = [].
Proof. induction figs; simpl; auto. Qed.

Lemma charts_preview_of (d : dict DataFrame) : charts (preview_of d) = [].
Proof. unfold preview_of. induction d; simpl; auto. Qed.

Lemma charts_subheaders (slots : list nat) :
  charts (map slot_subheader slots) = [].
Proof. induction slots; simpl; auto. Qed.

Lemma charts_charts (figs : list Figure) : charts (map EvChart figs) = figs.
Proof. induction figs; simpl; congruence. Qed.

Lemma subheaders_preview_of (d : dict DataFrame) : subheaders (preview_of d) = [].
Proof. unfold preview_of. induction d; simpl; auto. Qed.

Lemma subheaders_charts (figs : list Figure) : subheaders (map EvChart figs) = [].
Proof. induction figs; simpl; auto. Qed.

Lemma subheaders_subheaders (slots : list nat) :
  subheaders (map slot_subheader slots) =
  map (fun i => "Plot " +++ str_of_nat (i + 1)) slots.
Proof.
  induction slots as [|i slots IH]; [reflexivity|].
  unfold subheaders in *. cbn [map flat_map]. rewrite IH. reflexivity.
Qed.

Lemma diagnostics_preview_of (d : dict DataFrame) :
  diagnostics (preview_of d) = [].
Proof. unfold preview_of. induction d; simpl; auto. Qed.

Lemma diagnostics_subheaders (slots : list nat) :
  diagnostics (map slot_subheader slots) = [].
Proof. induction slots; simpl; auto. Qed.

Lemma diagnostics_charts (figs : list Figure) :
  diagnostics (map EvChart figs) = [].
Proof. induction figs; simpl; auto. Qed.

Lemma load_page files dataframes diag :
  load_dataframes files = (Ok dataframes, diag) ->
  diag = map EvError (diagnostics diag).
Proof.
  rewrite load_dataframes_eq. intros [= _ <-]. now rewrite diagnostics_errors.
Qed.

(** What the last part of a run shows is a list of charts. *)
Lemma drawing_page dataframes plot_configs :
  Forall (configured dataframes) plot_configs ->
  exists figs,
    snd (drawing ui plot_configs) = map EvChart figs /\
    List.length figs <= List.length plot_configs /\
    (clicked ui "Generate Plots" = false ->
     figs = [] /\ fst (drawing ui plot_configs) = Ok tt) /\
    (clicked ui "Generate Plots" = true ->
     fst (drawing ui plot_configs) = Ok tt ->
     List.length figs = List.length plot_configs) /\
    (Forall columns_exist plot_configs -> fst (drawing ui plot_configs) = Ok tt).
Proof.
  intros Hall. unfold drawing.
  destruct (clicked ui "Generate Plots").
  - destruct (render_loop_page dataframes plot_configs Hall)
      as [figs [Hout [Hle [Hok Hex]]]].
    exists figs. repeat split; try assumption; try discriminate.
    intros _. exact Hok.
  - exists []. simpl. repeat split; try lia; try reflexivity; discriminate.
Qed.

(** X11. When at least one table is loaded, the page previews every
    table of the mapping once, unchanged and in the order of the mapping,
    each under its name; nothing else on the page is a table. *)
Theorem main_previews_every_table files dataframes diag :
  load_dataframes files = (Ok dataframes, diag) -> dataframes <> [] ->
  previews (snd (main ui files)) = values dataframes /\
  exists before after,
    snd (main ui files) = before ++ preview_of dataframes ++ after /\
    previews before = [] /\ previews after = [].
Proof.
  intros Hload Hne.
  destruct (main_page files dataframes diag Hload Hne)
    as [n [cfgs [_ [_ [_ [Hall Hmain]]]]]].
  destruct (drawing_page dataframes cfgs Hall) as [figs [Hfigs _]].
  pose proof (load_page files dataframes diag Hload) as Hdiag.
  assert (Hb : previews (page_head ++ diag ++ preview_head) = []).
  { rewrite !previews_app, Hdiag, previews_errors. reflexivity. }
  assert (Ha : previews (map slot_subheader (seq 0 n) ++
                         snd (drawing ui cfgs)) = []).
  { rewrite previews_app, Hfigs, previews_subheaders, previews_charts.
    reflexivity. }
  rewrite Hmain. cbn [snd]. split.
  - replace (page_head ++ diag ++ preview_head ++ preview_of dataframes ++
             map slot_subheader (seq 0 n) ++ snd (drawing ui cfgs))
      with ((page_head ++ diag ++ preview_head) ++ preview_of dataframes ++
            (map slot_subheader (seq 0 n) ++ snd (drawing ui cfgs)))
      by (now rewrite <- !app_assoc).
    rewrite (previews_app (page_head ++ diag ++ preview_head)),
      (previews_app (preview_of dataframes)), Hb, Ha, previews_preview_of.
    now rewrite app_nil_r.
  - exists (page_head ++ diag ++ preview_head),
           (map slot_subheader (seq 0 n) ++ snd (drawing ui cfgs)).
    split; [now rewrite <- !app_assoc|]. split; assumption.
Qed.

(** X12. When at least one table is loaded, the run works with 1 to 4
    plots, 2 when the plot-count box is untouched. The page has the
    subheaders "Plot 1" to "Plot n" of that number [n] of plots, in
    order, and at most [n] charts; when the button is pressed and the
    run ends normally it has exactly [n] charts. *)
Theorem main_plot_count files dataframes diag :
  load_dataframes files = (Ok dataframes, diag) -> dataframes <> [] ->
  exists n,
    num_plots_of ui = Some n /\ 1 <= n <= 4 /\
    (picked ui "Number of Plots" = None -> n = 2) /\
    subheaders (snd (main ui files)) =
      map (fun i => "Plot " +++ str_of_nat (i + 1)) (seq 0 n) /\
    List.length (charts (snd (main ui files))) <= n /\
    (clicked ui "Generate Plots" = true -> fst (main ui files) = Ok tt ->
     List.length (charts (snd (main ui files))) = n).
Proof.
  intros Hload Hne.
  destruct (main_page files dataframes diag Hload Hne)
    as [n [cfgs [Hn [_ [Hlen [Hall Hmain]]]]]].
  destruct (num_plots_range ui) as [n' [Hn' [Hrange Hdefault]]].
  assert (n' = n) by congruence. subst n'.
  destruct (drawing_page dataframes cfgs Hall)
    as [figs [Hfigs [Hle [_ [Hexact _]]]]].
  pose proof (load_page files dataframes diag Hload) as Hdiag.
  exists n. split; [exact Hn|]. split; [exact Hrange|].
  split; [exact Hdefault|].
  rewrite Hmain. cbn [fst snd]. rewrite Hfigs.
  rewrite !subheaders_app, !charts_app, Hdiag.
  rewrite subheaders_errors, subheaders_preview_of, subheaders_subheaders,
    subheaders_charts.
  rewrite charts_errors, charts_preview_of, charts_subheaders, charts_charts.
  cbn [page_head preview_head subheaders charts flat_map app].
  rewrite app_nil_r.
  split; [reflexivity|]. split; [lia|].
  intros Hclick Hok. rewrite (Hexact Hclick Hok). exact Hlen.
Qed.

(** X13. The loader is the only source of diagnostics of a run: the
    diagnostics of the page of [main] are those of [load_dataframes], so
    [plot_data] is never called by [main] in an unsupported mode. *)
Theorem main_diagnostics_from_loader files :
  diagnostics (snd (main ui files)) = diagnostics (snd (load_dataframes files)).
Proof.
  destruct files as [|f files]; [reflexivity|].
  destruct (load_dataframes (f :: files)) as [r diag] eqn:Hload.
  assert (exists d, r = Ok d) as [d ->].
  { rewrite load_dataframes_eq in Hload. injection Hload as <- _. eauto. }
  cbn [snd]. destruct d as [|item d].
  - rewrite (main_page_empty f files diag Hload). cbn [snd].
    rewrite diagnostics_app. reflexivity.
  - destruct (main_page (f :: files) (item :: d) diag Hload ltac:(discriminate))
      as [n [cfgs [_ [_ [_ [Hall Hmain]]]]]].
    destruct (drawing_page (item :: d) cfgs Hall) as [figs [Hfigs _]].
    rewrite Hmain. cbn [snd]. rewrite Hfigs, !diagnostics_app.
    rewrite diagnostics_preview_of, diagnostics_subheaders, diagnostics_charts.
    cbn [page_head preview_head diagnostics app]. now rewrite app_nil_r.
Qed.
End MainMore.

Section MainOutcome.
Context {pd : Decoders}.
Variable ui : Widgets.

Lemma load_result files :
  exists dataframes diag, load_dataframes files = (Ok dataframes, diag).
Proof. rewrite load_dataframes_eq. eauto. Qed.

Lemma loaded_table_origin files dataframes diag nm df :
  load_dataframes files = (Ok dataframes, diag) ->
  dict_get dataframes nm = Some df ->
  exists f, In f files /\ name f = nm /\ loads f = Some df.
Proof.
  rewrite load_dataframes_eq. intros [= <- _] H.
  rewrite load_get in H. apply last_error_In in H. now apply loaded_as_In.
Qed.

Lemma loaded_nonempty files dataframes diag f :
  load_dataframes files = (Ok dataframes, diag) ->
  In f files -> fails f = false -> dataframes <> [].
Proof.
  rewrite load_dataframes_eq. intros [= <- _] Hf Hok Hd.
  unfold fails in Hok. destruct (loads f) as [df|] eqn:E; [|discriminate].
  assert (Hin : In df (loaded_as (name f) files)).
  { apply loaded_as_In. now exists f. }
  pose proof (load_get files (name f)) as Hget. rewrite Hd in Hget.
  simpl in Hget. symmetry in Hget. apply last_error_None in Hget.
  rewrite Hget in Hin. destruct Hin.
Qed.

(** X14. Pressing the button only adds charts: the page of a run is
    the page of the same run with the button released, which has no
    chart, followed by charts alone; with the button released the run is
    the same whatever else the button is. *)
Theorem generate_only_adds_charts (files : list UploadedFile) :
  exists figs,
    snd (main ui files) = snd (main (released ui) files) ++ map EvChart figs /\
    charts (snd (main (released ui) files)) = [] /\
    (clicked ui "Generate Plots" = false ->
     main ui files = main (released ui) files).
Proof.
  destruct files as [|f files].
  { exists []. split; [now rewrite app_nil_r|]. split; reflexivity. }
  destruct (load_result (f :: files)) as [d [diag Hload]].
  pose proof (load_page _ _ _ Hload) as Hdiag.
  destruct d as [|item d].
  - rewrite (main_page_empty ui f files diag Hload).
    rewrite (main_page_empty (released ui) f files diag Hload).
    exists []. cbn [snd map]. rewrite app_nil_r.
    split; [reflexivity|]. split; [|reflexivity].
    rewrite charts_app, Hdiag, charts_errors. reflexivity.
  - destruct (main_page ui _ _ _ Hload ltac:(discriminate))
      as [n [cfgs [Hn [Hrun [_ [Hall Hmain]]]]]].
    destruct (main_page (released ui) _ _ _ Hload ltac:(discriminate))
      as [n' [cfgs' [Hn' [Hrun' [_ [_ Hmain']]]]]].
    assert (n' = n).
    { change (num_plots_of ui = Some n') in Hn'. congruence. }
    subst n'.
    assert (cfgs' = cfgs).
    { change (for_each (configure_slot ui (item :: d)) (seq 0 n) [] =
              (Ok cfgs', map slot_subheader (seq 0 n))) in Hrun'.
      congruence. }
    subst cfgs'.
    destruct (drawing_page ui (item :: d) cfgs Hall)
      as [figs [Hfigs [_ [Hoff _]]]].
    exists figs. rewrite Hmain, Hmain'. cbn [fst snd].
    change (drawing (released ui) cfgs) with (@ret unit tt).
    cbn [fst snd ret]. rewrite Hfigs.
    split; [now rewrite !app_nil_r, <- !app_assoc|].
    split.
    + rewrite !charts_app, Hdiag, charts_errors, charts_preview_of,
        charts_subheaders. reflexivity.
    + intros Hclick. destruct (Hoff Hclick) as [-> Hok].
      rewrite Hok. reflexivity.
Qed.

(** X15. When at least one uploaded file loads and every table that
    loads has at least one column, [main] ends normally whatever the
    widgets hold: with the button pressed the page has one chart for each
    of the plots of the run, and none with the button released. *)
Theorem main_returns_normally (files : list UploadedFile) :
  (exists f, In f files /\ fails f = false) ->
  (forall f df, In f files -> loads f = Some df -> columns df <> []) ->
  fst (main ui files) = Ok tt /\
  exists n,
    num_plots_of ui = Some n /\
    List.length (charts (snd (main ui files))) =
      if clicked ui "Generate Plots" then n else 0.
Proof.
  intros [f [Hf Hok]] Hcols.
  destruct (load_result files) as [d [diag Hload]].
  pose proof (load_page _ _ _ Hload) as Hdiag.
  pose proof (loaded_nonempty files d diag f Hload Hf Hok) as Hne.
  destruct (main_page ui files d diag Hload Hne)
    as [n [cfgs [Hn [_ [Hlen [Hall Hmain]]]]]].
  assert (Hex : Forall columns_exist cfgs).
  { rewrite Forall_forall in Hall. apply Forall_forall. intros c Hc.
    destruct (Hall c Hc) as [[nm [_ Hget]] [_ [Hexist _]]].
    apply Hexist.
    destruct (loaded_table_origin files d diag nm _ Hload Hget)
      as [g [Hg [_ Hl]]].
    exact (Hcols g _ Hg Hl). }
  destruct (drawing_page ui d cfgs Hall)
    as [figs [Hfigs [_ [Hoff [Hon Hdraw]]]]].
  specialize (Hdraw Hex).
  rewrite Hmain. cbn [fst snd]. split; [exact Hdraw|].
  exists n. split; [exact Hn|].
  rewrite Hfigs, !charts_app, Hdiag, charts_errors, charts_preview_of,
    charts_subheaders, charts_charts.
  cbn [page_head preview_head charts flat_map app].
  destruct (clicked ui "Generate Plots") eqn:Hclick.
  - rewrite (Hon eq_refl Hdraw). exact Hlen.
  - now destruct (Hoff eq_refl) as [-> _].
Qed.
End MainOutcome.

(* ------------------------------------------------------------------ *)
(** ** [real-time.py]                                                 *)
(* ------------------------------------------------------------------ *)

Lemma last_n_length {A} (n : nat) (l : list A) :
  List.length (last_n n l) = Nat.min n (List.length l).
Proof. unfold last_n. rewrite length_skipn. lia. Qed.

Lemma last_n_suffix {A} (n : nat) (l : list A) :
  l = firstn (List.length l - n) l ++ last_n n l.
Proof. unfold last_n. now rewrite firstn_skipn. Qed.

Lemma last_n_short {A} (n : nat) (l : list A) :
  List.length l <= n -> last_n n l = l.
Proof.
  intros H. unfold last_n.
  replace (List.length l - n) with 0 by lia. reflexivity.
Qed.

Section RealTimeFacts.
Variable disk : string -> outcome DataFrame.

Lemma read_new_data_log ts vs :
  holds_log disk ts vs ->
  read_new_data disk = (Ok (last_n 10 ts, last_n 10 vs), []).
Proof.
  intros [df [Hd [Ht [Hv _]]]]. unfold read_new_data.
  rewrite Hd. cbn [call bind getitem]. rewrite Ht. cbn [bind].
  rewrite Hv. reflexivity.
Qed.

Lemma read_new_data_no_log : no_log disk -> read_new_data disk = (Ok ([], []), []).
Proof.
  intros [e [Hd He]]. unfold read_new_data. rewrite Hd.
  unfold call, bind, try_except_only. now rewrite He.
Qed.

(** X16. When the file holds the two columns, [read_new_data] returns
    the last ten values of each, in file order, and all of them when
    there are fewer than ten; the two lists have the same length, at most
    ten, and each is the end of its column. *)
Theorem read_new_data_last_ten (ts vs : list scalar) :
  holds_log disk ts vs ->
  read_new_data disk = (Ok (last_n 10 ts, last_n 10 vs), []) /\
  List.length (last_n 10 ts) = Nat.min 10 (List.length ts) /\
  List.length (last_n 10 vs) = List.length (last_n 10 ts) /\
  (exists older, ts = older ++ last_n 10 ts) /\
  (exists older, vs = older ++ last_n 10 vs) /\
  (List.length ts <= 10 -> last_n 10 ts = ts /\ last_n 10 vs = vs).
Proof.
  intros H. split; [now apply read_new_data_log|].
  destruct H as [df [_ [_ [_ Hlen]]]].
  split; [apply last_n_length|].
  split; [rewrite !last_n_length; lia|].
  split; [eexists; apply last_n_suffix|].
  split; [eexists; apply last_n_suffix|].
  intros Hle. split; apply last_n_short; lia.
Qed.

(** X17. Of the exceptions of [pd.read_csv], [read_new_data] absorbs
    [FileNotFoundError] alone, for which it returns two empty lists;
    every other exception escapes unchanged. *)
Theorem read_new_data_read_error (e : exn) :
  disk "your_data.csv" = Raise e ->
  read_new_data disk =
    (if String.eqb (exn_class e) "FileNotFoundError" then Ok ([], [])
     else Raise e, []).
Proof.
  intros Hd. unfold read_new_data. rewrite Hd.
  unfold call, bind, try_except_only.
  now destruct (String.eqb (exn_class e) "FileNotFoundError").
Qed.

(** X18. A file without the column "timestamp" or without the column
    "value" is not absorbed: the [KeyError] of the first of the two that
    is missing escapes from [read_new_data]. *)
Theorem read_new_data_missing_column (df : DataFrame) :
  disk "your_data.csv" = Ok df ->
  ~ In "timestamp" (columns df) \/ ~ In "value" (columns df) ->
  exists k,
    read_new_data disk = (Raise (KeyError (Some k)), []) /\
    (k = "timestamp" /\ ~ In "timestamp" (columns df) \/
     k = "value" /\ In "timestamp" (columns df) /\ ~ In "value" (columns df)).
Proof.
  intros Hd Hmiss. unfold read_new_data. rewrite Hd.
  cbn [call bind getitem].
  destruct (dict_get df "timestamp") as [ts|] eqn:Ht.
  - assert (Hin : In "timestamp" (columns df)) by (eapply get_in_columns; eassumption).
    destruct Hmiss as [H|H]; [contradiction|].
    exists "value". split; [|right; tauto].
    assert (Hv : dict_get df "value" = None) by now apply dict_get_None.
    cbn [bind]. rewrite Hv. reflexivity.
  - exists "timestamp". split.
    + reflexivity.
    + left. split; [reflexivity|]. now apply dict_get_None.
Qed.

Lemma update_plot_log (i : nat) (st : PlotState) ts vs :
  List.length (x_data st) = List.length (y_data st) ->
  holds_log disk ts vs ->
  update_plot disk i st =
    (Ok tt, mkPlotState (x_data st ++ last_n 10 ts) (y_data st ++ last_n 10 vs)
              (drawn_axes (x_data st ++ last_n 10 ts)
                          (y_data st ++ last_n 10 vs))).
Proof.
  intros Hlen H. unfold update_plot. rewrite (read_new_data_log ts vs H).
  cbn [fst]. unfold ax_plot, ax_clear, new_axes. cbn [ax_lines].
  destruct H as [df [_ [_ [_ Hl]]]].
  assert (E : List.length (x_data st ++ last_n 10 ts) =
              List.length (y_data st ++ last_n 10 vs)).
  { rewrite !length_app, !last_n_length. lia. }
  apply Nat.eqb_eq in E. rewrite E. reflexivity.
Qed.

Lemma update_plot_no_log (i : nat) (st : PlotState) :
  List.length (x_data st) = List.length (y_data st) ->
  no_log disk ->
  update_plot disk i st =
    (Ok tt, mkPlotState (x_data st) (y_data st)
              (drawn_axes (x_data st) (y_data st))).
Proof.
  intros Hlen H. unfold update_plot. rewrite (read_new_data_no_log H).
  cbn [fst]. rewrite !app_nil_r.
  unfold ax_plot, ax_clear, new_axes. cbn [ax_lines].
  apply Nat.eqb_eq in Hlen. rewrite Hlen. reflexivity.
Qed.

(** X19. When the file holds the two columns and the two lists have
    the same length, [update_plot] ends normally whatever the frame
    number is: it appends the last ten values of each column to its list
    and leaves on the axes, whatever they held, the one line of the two
    lists with the labels "Timestamp" and "Value" and the title. When the
    file is missing the lists stay as they are and the line is redrawn. *)
Theorem update_plot_redraws (i : nat) (st : PlotState) :
  List.length (x_data st) = List.length (y_data st) ->
  (forall ts vs, holds_log disk ts vs ->
     update_plot disk i st =
       (Ok tt, mkPlotState (x_data st ++ last_n 10 ts) (y_data st ++ last_n 10 vs)
                 (drawn_axes (x_data st ++ last_n 10 ts)
                             (y_data st ++ last_n 10 vs)))) /\
  (no_log disk ->
     update_plot disk i st =
       (Ok tt, mkPlotState (x_data st) (y_data st)
                 (drawn_axes (x_data st) (y_data st)))).
Proof.
  intros Hlen. split.
  - intros ts vs H. now apply update_plot_log.
  - intros H. now apply update_plot_no_log.
Qed.
End RealTimeFacts.

Lemma update_plot_step (disk : string -> outcome DataFrame) (i : nat)
    (st : PlotState) :
  List.length (x_data st) = List.length (y_data st) ->
  no_log disk \/ (exists ts vs, holds_log disk ts vs) ->
  exists xs ys,
    update_plot disk i st =
      (Ok tt, mkPlotState (x_data st ++ xs) (y_data st ++ ys)
                (drawn_axes (x_data st ++ xs) (y_data st ++ ys))) /\
    List.length xs = List.length ys /\ List.length xs <= 10 /\
    (forall ts vs, holds_log disk ts vs -> xs = last_n 10 ts /\ ys = last_n 10 vs).
Proof.
  intros Hlen [Hno|[ts [vs Hlog]]].
  - exists [], []. rewrite !app_nil_r.
    split; [now apply update_plot_no_log|].
    split; [reflexivity|]. split; [simpl; lia|].
    intros ts vs [df [Hd _]]. destruct Hno as [e [He _]]. congruence.
  - exists (last_n 10 ts), (last_n 10 vs).
    split; [now apply update_plot_log|].
    pose proof Hlog as [df [Hd [Ht [Hv Hl]]]].
    split; [rewrite !last_n_length; lia|].
    split; [rewrite last_n_length; lia|].
    intros ts' vs' [df' [Hd' [Ht' [Hv' _]]]].
    assert (df' = df) by congruence. subst df'.
    split; congruence.
Qed.

(** X20. Over any number of frames on disks that hold the log or no
    file at all, starting from two lists of the same length, no frame
    raises; the two lists keep the same length and only grow at the end,
    by at most ten values a frame; and after at least one frame the axes
    hold exactly the one line of the two lists. *)
Theorem frames_keep_lists_aligned (disks : list (string -> outcome DataFrame)) :
  Forall (fun disk => no_log disk \/ exists ts vs, holds_log disk ts vs) disks ->
  forall (i : nat) (st : PlotState),
    List.length (x_data st) = List.length (y_data st) ->
    exists st' xs ys,
      frames disks i st = (Ok tt, st') /\
      x_data st' = x_data st ++ xs /\ y_data st' = y_data st ++ ys /\
      List.length xs = List.length ys /\
      List.length xs <= 10 * List.length disks /\
      (disks <> [] -> ax st' = drawn_axes (x_data st') (y_data st')).
Proof.
  induction disks as [|disk disks IH]; intros Hall i st Hlen.
  - exists st, [], []. rewrite !app_nil_r. simpl.
    repeat split; try lia. congruence.
  - inversion Hall as [|? ? Hd Hds]; subst.
    destruct (update_plot_step disk i st Hlen Hd)
      as [xs [ys [Hstep [Hxy [Hten _]]]]].
    cbn [frames]. rewrite Hstep.
    set (st1 := mkPlotState (x_data st ++ xs) (y_data st ++ ys)
                  (drawn_axes (x_data st ++ xs) (y_data st ++ ys))).
    assert (Hlen1 : List.length (x_data st1) = List.length (y_data st1)).
    { unfold st1; cbn [x_data y_data]. rewrite !length_app. lia. }
    destruct (IH Hds (S i) st1 Hlen1)
      as [st' [xs' [ys' [Hrun [Hx [Hy [Hxy' [Hbound Hax]]]]]]]].
    exists st', (xs ++ xs'), (ys ++ ys').
    split; [exact Hrun|].
    split; [rewrite Hx; unfold st1; cbn [x_data]; now rewrite app_assoc|].
    split; [rewrite Hy; unfold st1; cbn [y_data]; now rewrite app_assoc|].
    split; [rewrite !length_app; lia|].
    split; [rewrite length_app; cbn [List.length]; lia|].
    intros _. destruct disks as [|disk2 disks].
    + cbn [frames] in Hrun. injection Hrun as <-.
      unfold st1. reflexivity.
    + apply Hax. discriminate.
Qed.

(** X21. The file is read whole on every frame: while it stays the
    same, each frame appends the same last ten values once more, so after
    [n] frames the lists hold [n] copies of them after what they held. *)
Theorem frames_repeat_the_same_points (disk : string -> outcome DataFrame)
    (ts vs : list scalar) (n i : nat) (st : PlotState) :
  holds_log disk ts vs ->
  List.length (x_data st) = List.length (y_data st) ->
  exists st',
    frames (repeat disk n) i st = (Ok tt, st') /\
    x_data st' = x_data st ++ concat (repeat (last_n 10 ts) n) /\
    y_data st' = y_data st ++ concat (repeat (last_n 10 vs) n).
Proof.
  intros Hlog. revert i st.
  induction n as [|n IH]; intros i st Hlen.
  - exists st. simpl. now rewrite !app_nil_r.
  - destruct (update_plot_step disk i st Hlen (or_intror (ex_intro _ ts
                (ex_intro _ vs Hlog))))
      as [xs [ys [Hstep [Hxy [_ Hpts]]]]].
    destruct (Hpts ts vs Hlog) as [-> ->].
    cbn [repeat frames]. rewrite Hstep.
    set (st1 := mkPlotState _ _ _).
    assert (Hlen1 : List.length (x_data st1) = List.length (y_data st1)).
    { unfold st1; cbn [x_data y_data]. rewrite !length_app. lia. }
    destruct (IH (S i) st1 Hlen1) as [st' [Hrun [Hx Hy]]].
    exists st'. split; [exact Hrun|].
    rewrite Hx, Hy. unfold st1. cbn [x_data y_data concat].
    now rewrite !app_assoc.
Qed.

(* ------------------------------------------------------------------ *)
(** ** The further properties on the sample session                   *)
(* ------------------------------------------------------------------ *)

Lemma load_dataframes_dispatch_witness :
  load_dataframes (pd := sample_decoders) [a_csv; blank_csv; b_csv] =
  load_dataframes
    (pd := {| read_csv := sample_read_csv;
              read_excel := fun _ => Raise (mkExn "ImportError" "openpyxl") |})
    [a_csv; blank_csv; b_csv].
Proof.
  apply load_dataframes_dispatch.
  - intros f _ _. reflexivity.
  - intros f [<-|[<-|[<-|[]]]] H; vm_compute in H; discriminate H.
Defined.


Lemma configure_loop_total_witness :
  exists plot_configs,
    for_each (configure_slot two_plots
                [("a.csv", sample_a); ("b.csv", sample_b)]) (seq 0 2) [] =
      (Ok plot_configs, [slot_subheader 0; slot_subheader 1]) /\
    List.length plot_configs = 2.
Proof.
  destruct (configure_loop_total two_plots
              [("a.csv", sample_a); ("b.csv", sample_b)] (seq 0 2)
              ltac:(discriminate))
    as [cfgs [Hrun [Hlen _]]].
  exists cfgs. split; [exact Hrun | exact Hlen].
Defined.

Lemma configure_slot_independent_witness :
  configure_slot (pick (untouched false) ("x_axis_" +++ str_of_nat 1) 1)
    [("a.csv", sample_a); ("b.csv", sample_b)] [] 0 =
  configure_slot (untouched false)
    [("a.csv", sample_a); ("b.csv", sample_b)] [] 0.
Proof.
  apply (proj1 (configure_slot_independent (untouched false)
                  [("a.csv", sample_a); ("b.csv", sample_b)] [] 0 1 1
                  "x_axis_" ltac:(simpl; tauto) ltac:(lia))).
Defined.

Lemma sample_entry_configured :
  configured [("a.csv", sample_a); ("empty.xlsx", empty_sheet)]
             (default_entry "a.csv" sample_a) /\
  columns_exist (default_entry "a.csv" sample_a) /\
  configured [("a.csv", sample_a); ("empty.xlsx", empty_sheet)]
             (default_entry "empty.xlsx" empty_sheet) /\
  ~ columns_exist (default_entry "empty.xlsx" empty_sheet).
Proof.
  assert (Hex : columns_exist (default_entry "a.csv" sample_a)).
  { exists "t", "t". simpl. tauto. }
  split; [|split; [exact Hex|split]].
  - split; [exists "a.csv"; split; reflexivity|].
    split; [left; reflexivity|]. split; [intros _; exact Hex|].
    split; [discriminate | reflexivity].
  - split; [exists "empty.xlsx"; split; reflexivity|].
    split; [left; reflexivity|]. split; [intros H; now destruct H|].
    split; [intros _; split; reflexivity | reflexivity].
  - intros [x [y [Hx _]]]. discriminate Hx.
Qed.

Lemma render_stops_at_first_failure_witness :
  exists e figs,
    for_each render_slot
      ([default_entry "a.csv" sample_a]
       ++ default_entry "empty.xlsx" empty_sheet
       :: [default_entry "a.csv" sample_a]) tt = (Raise e, map EvChart figs) /\
    List.length figs = 1.
Proof.
  destruct sample_entry_configured as [Ha [Hax [He Hex]]].
  destruct (render_stops_at_first_failure
              [("a.csv", sample_a); ("empty.xlsx", empty_sheet)]
              [default_entry "a.csv" sample_a]
              [default_entry "a.csv" sample_a]
              (default_entry "empty.xlsx" empty_sheet)
              (Forall_cons _ Ha (Forall_nil _))
              (Forall_cons _ Hax (Forall_nil _)) He Hex)
    as [e [figs [Hrun [Hlen _]]]].
  exists e, figs. split; [exact Hrun | exact Hlen].
Defined.

Lemma main_previews_every_table_witness :
  previews (snd (main (pd := sample_decoders) two_plots [a_csv; blank_csv; b_csv]))
  = [sample_a; sample_b].
Proof.
  exact (proj1 (main_previews_every_table (pd := sample_decoders) two_plots
                  [a_csv; blank_csv; b_csv]
                  [("a.csv", sample_a); ("b.csv", sample_b)]
                  [EvError "Error loading blank.csv: No columns to parse from file"]
                  eq_refl ltac:(discriminate))).
Defined.

Lemma main_plot_count_witness :
  exists n,
    num_plots_of two_plots = Some n /\ 1 <= n <= 4 /\
    List.length (charts (snd (main (pd := sample_decoders) two_plots
                                [a_csv; b_csv]))) <= n.
Proof.
  destruct (main_plot_count (pd := sample_decoders) two_plots [a_csv; b_csv]
              [("a.csv", sample_a); ("b.csv", sample_b)] []
              eq_refl ltac:(discriminate))
    as [n [Hn [Hrange [_ [_ [Hle _]]]]]].
  exists n. split; [exact Hn|]. split; [exact Hrange | exact Hle].
Defined.

Lemma main_returns_normally_witness :
  fst (main (pd := sample_decoders) two_plots [a_csv; blank_csv; b_csv]) = Ok tt.
Proof.
  apply (main_returns_normally (pd := sample_decoders) two_plots
           [a_csv; blank_csv; b_csv]).
  - exists a_csv. split; [left; reflexivity | reflexivity].
  - intros f df [<-|[<-|[<-|[]]]] H; vm_compute in H;
      try discriminate H; injection H as <-; discriminate.
Defined.

Lemma sample_log_held :
  holds_log disk_with_log
    (map (fun n => Num (Z.of_nat n)) (seq 1 12))
    (map (fun n => Num (Z.of_nat (n * n))) (seq 1 12)).
Proof. exists sample_log. repeat split; reflexivity. Qed.

Lemma read_new_data_last_ten_witness :
  read_new_data disk_with_log =
    (Ok (map (fun n => Num (Z.of_nat n)) (seq 3 10),
         map (fun n => Num (Z.of_nat (n * n))) (seq 3 10)), []).
Proof.
  exact (proj1 (read_new_data_last_ten disk_with_log _ _ sample_log_held)).
Defined.

Lemma read_new_data_read_error_witness :
  read_new_data locked_disk =
    (Raise (mkExn "PermissionError" "Permission denied"), []) /\
  read_new_data empty_disk = (Ok ([], []), []).
Proof.
  split.
  - exact (read_new_data_read_error locked_disk _ eq_refl).
  - exact (read_new_data_read_error empty_disk _ eq_refl).
Defined.

Lemma read_new_data_missing_column_witness :
  exists k,
    read_new_data disk_with_other_log = (Raise (KeyError (Some k)), []) /\
    k = "timestamp".
Proof.
  assert (Hmiss : ~ In "timestamp" (columns sample_a) \/
                  ~ In "value" (columns sample_a)).
  { left. simpl. intuition discriminate. }
  destruct (read_new_data_missing_column disk_with_other_log sample_a
              eq_refl Hmiss)
    as [k [Hrun [[Hk _]|[_ [Hin _]]]]].
  - exists k. split; [exact Hrun | exact Hk].
  - exfalso. simpl in Hin. intuition discriminate.
Defined.

Lemma update_plot_redraws_witness :
  update_plot disk_with_log 0 App_init =
    (Ok tt,
     mkPlotState
       (map (fun n => Num (Z.of_nat n)) (seq 3 10))
       (map (fun n => Num (Z.of_nat (n * n))) (seq 3 10))
       (drawn_axes (map (fun n => Num (Z.of_nat n)) (seq 3 10))
                   (map (fun n => Num (Z.of_nat (n * n))) (seq 3 10)))).
Proof.
  exact (proj1 (update_plot_redraws disk_with_log 0 App_init eq_refl)
               _ _ sample_log_held).
Defined.

Lemma frames_keep_lists_aligned_witness :
  exists st' xs ys,
    frames [empty_disk; disk_with_log; disk_with_log] 0 App_init = (Ok tt, st') /\
    x_data st' = xs /\ y_data st' = ys /\
    List.length xs = List.length ys /\ List.length xs <= 30.
Proof.
  assert (Hd : Forall (fun disk => no_log disk \/
                                   exists ts vs, holds_log disk ts vs)
                      [empty_disk; disk_with_log; disk_with_log]).
  { apply Forall_cons; [|apply Forall_cons; [|apply Forall_cons; [|apply Forall_nil]]].
    - left. eexists. split; reflexivity.
    - right. eexists. eexists. exact sample_log_held.
    - right. eexists. eexists. exact sample_log_held. }
  destruct (frames_keep_lists_aligned _ Hd 0 App_init eq_refl)
    as [st' [xs [ys [Hrun [Hx [Hy [Hlen [Hbound _]]]]]]]].
  exists st', xs, ys. split; [exact Hrun|].
  split; [exact Hx|]. split; [exact Hy|]. split; [exact Hlen | exact Hbound].
Defined.

Lemma frames_repeat_the_same_points_witness :
  exists st',
    frames (repeat disk_with_log 3) 0 App_init = (Ok tt, st') /\
    x_data st' =
      concat (repeat (map (fun n => Num (Z.of_nat n)) (seq 3 10)) 3).
Proof.
  destruct (frames_repeat_the_same_points disk_with_log _ _ 3 0 App_init
              sample_log_held eq_refl) as [st' [Hrun [Hx _]]].
  exists st'. split; [exact Hrun | exact Hx].
Defined.

(* ------------------------------------------------------------------ *)
(** ** Python's [repr] of a key                                       *)
(* ------------------------------------------------------------------ *)

(** A plain name is written between single quotes; a name that holds a
    single quote goes between double quotes; with both kinds of quote the
    single quote is escaped; the backslash and the control characters
    are escaped. *)
Example py_repr_examples :
  py_repr "timestamp" = "'timestamp'" /\
  py_repr "it's" = String dquote ("it's" +++ String dquote "") /\
  py_repr (String dquote "rpm") = String squote (String dquote "rpm'") /\
  py_repr ("it's " +++ String dquote "x") =
    "'it" +++ String backslash ("'s " +++ String dquote "x'") /\
  py_repr (String backslash "n") =
    String squote (String backslash (String backslash "n'")) /\
  py_repr (String (ascii_of_nat 10) "") = String squote (String backslash "n'") /\
  py_repr (String (ascii_of_nat 1) "") =
    String squote (String backslash "x01'") /\
  exn_str (KeyError (Some "it's")) = String dquote ("it's" +++ String dquote "") /\
  exn_str (KeyError None) = "None".
Proof. repeat split. Qed.

(* ------------------------------------------------------------------ *)
(** ** The catalog and the titles in a run of [main]                  *)
(* ------------------------------------------------------------------ *)

(** A slot whose columns exist draws one chart, which carries the title
    and the columns of its entry. *)
Lemma render_slot_chart dataframes c :
  configured dataframes c -> columns_exist c ->
  exists fig,
    render_slot tt c = (Ok tt, [EvChart fig]) /\
    title (fig_layout fig) = Some (cfg_title c) /\
    axis_title (xaxis (fig_layout fig)) = cfg_x_axis c /\
    axis_title (yaxis (fig_layout fig)) = cfg_y_axis c.
Proof.
  intros [_ [Hmode _]] [x [y [Hx [Hy [Ix Iy]]]]].
  assert (exists mode,
             cfg_plot_type c = Some "Line Plot" /\ mode = "lines" \/
             cfg_plot_type c = Some "Scatter Plot" /\ mode = "markers")
    as [mode Hm].
  { destruct Hmode; [exists "lines" | exists "markers"]; tauto. }
  destruct (in_columns_get _ _ Ix) as [xs [Gx _]].
  destruct (in_columns_get _ _ Iy) as [ys [Gy _]].
  unfold render_slot. rewrite Hx, Hy.
  rewrite (plot_data_supported _ x y xs ys _ _ mode Hm Gx Gy).
  eexists. split; [reflexivity|]. repeat split.
Qed.

Lemma render_loop_titles dataframes plot_configs :
  Forall (configured dataframes) plot_configs ->
  Forall columns_exist plot_configs ->
  exists figs,
    for_each render_slot plot_configs tt = (Ok tt, map EvChart figs) /\
    map (fun fig => title (fig_layout fig)) figs =
      map (fun c => Some (cfg_title c)) plot_configs.
Proof.
  induction plot_configs as [|c cs IH]; intros Hall Hex.
  - exists []. split; reflexivity.
  - inversion Hall as [|? ? Hc Hcs]; subst.
    inversion Hex as [|? ? Hcc Hccs]; subst.
    destruct (IH Hcs Hccs) as [figs [Hrun Ht]].
    destruct (render_slot_chart dataframes c Hc Hcc) as [fig [E [Et _]]].
    exists (fig :: figs). cbn [for_each map].
    rewrite (bind_ok _ _ _ _ E), Hrun, Et, Ht. split; reflexivity.
Qed.

(** When a table is loaded, the run of [main] is its head, the
    diagnostics of the loader, and the rest of the script run with the
    columns of the combined table. *)
Lemma main_runs_with_catalog {pd : Decoders} ui files dataframes diag combined :
  load_dataframes files = (Ok dataframes, diag) ->
  pd_concat (values dataframes) = Ok combined ->
  main ui files =
    (fst (configure_and_render ui (columns combined) dataframes),
     page_head ++ diag ++
     snd (configure_and_render ui (columns combined) dataframes)).
Proof.
  intros Hload Hc.
  destruct files as [|f files].
  { rewrite load_dataframes_eq in Hload. simpl in Hload.
    injection Hload as <- _. discriminate Hc. }
  unfold main, st_write, emit.
  rewrite (bind_ok _ _ tt _ eq_refl), (bind_ok _ _ tt _ eq_refl).
  rewrite (bind_ok _ _ _ _ Hload).
  unfold call. rewrite Hc. rewrite (bind_ok _ _ combined [] eq_refl).
  unfold page_head. cbn [fst snd app]. reflexivity.
Qed.

(** What a column select box of an entry returns is a column of the
    table of that entry. *)
Lemma configured_columns dataframes c :
  configured dataframes c ->
  (forall x, cfg_x_axis c = Some x -> In x (columns (cfg_df c))) /\
  (forall y, cfg_y_axis c = Some y -> In y (columns (cfg_df c))).
Proof.
  intros [_ [_ [Hex [Hnone _]]]].
  destruct (columns (cfg_df c)) as [|l r] eqn:E.
  - destruct (Hnone eq_refl) as [Hx Hy].
    split; intros v Hv; congruence.
  - destruct (Hex ltac:(discriminate)) as [x [y [Hx [Hy [Ix Iy]]]]].
    split; intros v Hv; congruence.
Qed.

(** C6 (amended). For a mapping with at least one table, [pd.concat]
    returns a combined table whose columns, the catalog, are the labels of
    all the tables with duplicates collapsed, in first-seen order: no
    label twice, and a label is in the catalog exactly when some table has
    it. Building the catalog again from the combined table, or collapsing
    it again, gives the same catalog. [main] builds this catalog right
    after loading (with no table it cannot, and the run ends there) and
    runs the rest of the script with it. The rest of the script never
    reads it, neither for drawing nor for the select boxes: with any
    other list in its place the page is the same, and the columns a slot
    selects are columns of the table of its own source, each of which is
    in the catalog. *)
Theorem catalog_is_first_seen_union (dataframes : dict DataFrame) :
  dataframes <> [] ->
  exists combined_data,
    pd_concat (values dataframes) = Ok combined_data /\
    let available_columns := columns combined_data in
    available_columns = first_seen (concat (map columns (values dataframes))) /\
    NoDup available_columns /\
    (forall c, In c available_columns <->
               exists nm df, In (nm, df) dataframes /\ In c (columns df)) /\
    (exists again, pd_concat [combined_data] = Ok again /\
                   columns again = available_columns) /\
    first_seen available_columns = available_columns /\
    (forall ui other,
        configure_and_render ui other dataframes =
        configure_and_render ui available_columns dataframes) /\
    (forall (pd : Decoders) ui files diag,
        load_dataframes files = (Ok dataframes, diag) ->
        main ui files =
          (fst (configure_and_render ui available_columns dataframes),
           page_head ++ diag ++
           snd (configure_and_render ui available_columns dataframes))) /\
    (forall (pd : Decoders) ui f files diag,
        load_dataframes (f :: files) = (Ok [], diag) ->
        main ui (f :: files) =
          (Raise (ValueError "No objects to concatenate"), page_head ++ diag)) /\
    (forall ui slots plot_configs out c,
        for_each (configure_slot ui dataframes) slots [] = (Ok plot_configs, out) ->
        In c plot_configs ->
        (forall x, cfg_x_axis c = Some x ->
                   In x (columns (cfg_df c)) /\ In x available_columns) /\
        (forall y, cfg_y_axis c = Some y ->
                   In y (columns (cfg_df c)) /\ In y available_columns)).
Proof.
  intros Hne.
  destruct (pd_concat_nonempty (values dataframes)) as [combined Hc].
  { destruct dataframes; [congruence | discriminate]. }
  exists combined. split; [exact Hc|]. cbv zeta.
  assert (Hcols : columns combined =
                  first_seen (concat (map columns (values dataframes)))).
  { rewrite (pd_concat_columns _ _ Hc). apply union_indexes_first_seen. }
  assert (Hnd : NoDup (columns combined)).
  { rewrite Hcols. apply first_seen_NoDup. }
  assert (Hmem : forall c, In c (columns combined) <->
                   exists nm df, In (nm, df) dataframes /\ In c (columns df)).
  { intros c. rewrite Hcols, first_seen_In. apply in_concat_columns. }
  split; [exact Hcols|]. split; [exact Hnd|]. split; [exact Hmem|].
  split.
  { eexists. split; [reflexivity|].
    rewrite (pd_concat_columns [combined] _ eq_refl).
    rewrite union_indexes_first_seen. simpl. rewrite app_nil_r.
    now apply first_seen_fixed. }
  split; [now apply first_seen_fixed|].
  split; [reflexivity|].
  split.
  { intros pd ui files diag Hload.
    now apply main_runs_with_catalog. }
  split.
  { intros pd ui f files diag Hload. now apply main_page_empty. }
  intros ui slots plot_configs out c Hrun Hin.
  pose proof (configure_loop_configured ui dataframes slots [] plot_configs
                out (Forall_nil _) Hrun) as Hall.
  rewrite Forall_forall in Hall. specialize (Hall c Hin).
  destruct (configured_columns dataframes c Hall) as [Hx Hy].
  destruct Hall as [[nm [_ Hget]] _].
  apply dict_get_In in Hget.
  split; intros v Hv; (split; [auto|]); apply Hmem;
    exists nm, (cfg_df c); split; auto.
Qed.

Lemma catalog_is_first_seen_union_witness :
  [("a.csv", sample_a); ("b.csv", sample_b)] <> [] /\
  exists combined_data,
    pd_concat (values [("a.csv", sample_a); ("b.csv", sample_b)])
      = Ok combined_data /\
    columns combined_data = ["t"; "v1"; "v2"] /\
    main (pd := sample_decoders) two_plots [a_csv; b_csv] =
      (fst (configure_and_render two_plots (columns combined_data)
              [("a.csv", sample_a); ("b.csv", sample_b)]),
       page_head ++
       snd (configure_and_render two_plots (columns combined_data)
              [("a.csv", sample_a); ("b.csv", sample_b)])).
Proof.
  assert (H : [("a.csv", sample_a); ("b.csv", sample_b)] <> []) by discriminate.
  split; [exact H|].
  destruct (catalog_is_first_seen_union _ H)
    as (combined & Hc & Hcols & _ & _ & _ & _ & _ & Hmain & _).
  exists combined. split; [exact Hc|].
  split; [rewrite Hcols; reflexivity|].
  exact (Hmain sample_decoders two_plots [a_csv; b_csv] [] eq_refl).
Defined.

(** C6, as stated, fails: the catalog does not populate the select
    boxes. For the two logs the catalog holds "v2", yet whatever is
    picked no slot on "a.csv" has "v2" as a column, since its boxes offer
    the columns of "a.csv" alone; and the page is the same with any other
    list in place of the catalog. *)
Lemma catalog_does_not_populate_selection :
  let dataframes := [("a.csv", sample_a); ("b.csv", sample_b)] in
  exists combined_data,
    pd_concat (values dataframes) = Ok combined_data /\
    columns combined_data = ["t"; "v1"; "v2"] /\
    (forall ui slots plot_configs out c,
        for_each (configure_slot ui dataframes) slots [] = (Ok plot_configs, out) ->
        In c plot_configs -> cfg_file_name c = Some "a.csv" ->
        cfg_x_axis c <> Some "v2" /\ cfg_y_axis c <> Some "v2") /\
    (forall ui,
        configure_and_render ui [] dataframes =
        configure_and_render ui (columns combined_data) dataframes) /\
    main (pd := sample_decoders) two_plots [a_csv; b_csv] =
      (fst (configure_and_render two_plots [] dataframes),
       page_head ++ snd (configure_and_render two_plots [] dataframes)).
Proof.
  eexists. split; [reflexivity|]. split; [reflexivity|].
  split; [|split; [reflexivity|]].
  - intros ui slots plot_configs out c Hrun Hin Hsrc.
    pose proof (configure_loop_configured ui _ slots [] plot_configs
                  out (Forall_nil _) Hrun) as Hall.
    rewrite Forall_forall in Hall. specialize (Hall c Hin).
    destruct (configured_columns _ c Hall) as [Hx Hy].
    destruct Hall as [[nm [Hnm Hget]] _].
    rewrite Hsrc in Hnm. injection Hnm as <-.
    simpl in Hget. injection Hget as Hdf.
    split; intros E; [apply Hx in E | apply Hy in E];
      rewrite <- Hdf in E; simpl in E; intuition discriminate.
  - vm_compute. reflexivity.
Qed.

Section Titles.
Context {pd : Decoders}.
Variable ui : Widgets.

(** C7. Whatever the widgets hold, the title of every entry of
    [plot_configs] is "<source> - <y column> vs <x column>", built from
    the source and the columns of that entry in the same run; two entries,
    of any two runs, with the same source and columns have the same
    title; and every chart [main] shows carries the title built from the
    source and the columns it plots. Such entries and charts are there:
    when a table is loaded the loop returns one entry for each slot, read
    from the select boxes of that slot and titled from what they return;
    and when, moreover, the button is pressed and every loaded table has
    a column, [main] ends normally and its page has one chart for each
    of the 1 to 4 plots of the run, in slot order, the chart of a slot
    carrying the title built from the source and the columns of the
    entry of that slot. *)
Theorem plot_title_is_derived (files : list UploadedFile)
    (dataframes : dict DataFrame) (diag : list ui_event) :
  load_dataframes files = (Ok dataframes, diag) ->
  (forall slots plot_configs out,
      for_each (configure_slot ui dataframes) slots [] = (Ok plot_configs, out) ->
      forall c, In c plot_configs ->
        cfg_title c =
        py_str (cfg_file_name c) +++ " - " +++ py_str (cfg_y_axis c)
          +++ " vs " +++ py_str (cfg_x_axis c)) /\
  (forall ui' slots slots' plot_configs plot_configs' out out' c c',
      for_each (configure_slot ui dataframes) slots [] = (Ok plot_configs, out) ->
      for_each (configure_slot ui' dataframes) slots' [] = (Ok plot_configs', out') ->
      In c plot_configs -> In c' plot_configs' ->
      cfg_file_name c = cfg_file_name c' ->
      cfg_x_axis c = cfg_x_axis c' -> cfg_y_axis c = cfg_y_axis c' ->
      cfg_title c = cfg_title c') /\
  (forall fig, In (EvChart fig) (snd (main ui files)) ->
     exists nm x y mode,
       chart_of dataframes fig nm x y mode /\
       title (fig_layout fig) = Some (nm +++ " - " +++ y +++ " vs " +++ x)) /\
  (dataframes <> [] ->
   forall slots, exists plot_configs,
     for_each (configure_slot ui dataframes) slots [] =
       (Ok plot_configs, map slot_subheader slots) /\
     List.length plot_configs = List.length slots /\
     Forall2 (slot_entry ui dataframes) slots plot_configs) /\
  (dataframes <> [] ->
   clicked ui "Generate Plots" = true ->
   (forall nm df, dict_get dataframes nm = Some df -> columns df <> []) ->
   exists n plot_configs,
     num_plots_of ui = Some n /\ 1 <= n <= 4 /\
     for_each (configure_slot ui dataframes) (seq 0 n) [] =
       (Ok plot_configs, map slot_subheader (seq 0 n)) /\
     List.length plot_configs = n /\
     fst (main ui files) = Ok tt /\
     map (fun fig => title (fig_layout fig)) (charts (snd (main ui files))) =
     map (fun c => Some (py_str (cfg_file_name c) +++ " - "
                           +++ py_str (cfg_y_axis c) +++ " vs "
                           +++ py_str (cfg_x_axis c))) plot_configs).
Proof.
  intros Hload.
  assert (Htitle : forall w slots plot_configs out c,
             for_each (configure_slot w dataframes) slots [] =
             (Ok plot_configs, out) ->
             In c plot_configs ->
             cfg_title c =
             derived_title (cfg_file_name c) (cfg_x_axis c) (cfg_y_axis c)).
  { intros w slots plot_configs out c Hrun Hc.
    pose proof (configure_loop_configured w dataframes slots [] plot_configs
                  out (Forall_nil _) Hrun) as Hall.
    rewrite Forall_forall in Hall.
    now destruct (Hall c Hc) as [_ [_ [_ [_ Ht]]]]. }
  split; [|split; [|split; [|split]]].
  - intros slots plot_configs out Hrun c Hc.
    now rewrite (Htitle ui slots plot_configs out c Hrun Hc).
  - intros ui' slots slots' plot_configs plot_configs' out out' c c'
           Hrun Hrun' Hc Hc' Ef Ex Ey.
    rewrite (Htitle ui slots plot_configs out c Hrun Hc).
    rewrite (Htitle ui' slots' plot_configs' out' c' Hrun' Hc').
    now rewrite Ef, Ex, Ey.
  - intros fig Hfig.
    pose proof (main_shows ui files dataframes diag Hload) as Hall.
    rewrite Forall_forall in Hall.
    destruct (Hall _ Hfig) as [nm [x [y [mode Hchart]]]].
    exists nm, x, y, mode. split; [exact Hchart|].
    now destruct Hchart as [df [xs [ys [_ [_ [_ [_ [_ [Ht _]]]]]]]]].
  - intros Hne slots.
    destruct (configure_loop_total_from ui dataframes slots [] Hne)
      as [cfgs [Hrun Hall]].
    exists cfgs. split; [exact Hrun|]. split; [|exact Hall].
    symmetry. exact (Forall2_length Hall).
  - intros Hne Hclick Hcols.
    destruct (main_page ui files dataframes diag Hload Hne)
      as [n [cfgs [Hn [Hrun [Hlen [Hall Hmain]]]]]].
    destruct (num_plots_range ui) as [n' [Hn' [Hrange _]]].
    assert (n' = n) by congruence. subst n'.
    assert (Hex : Forall columns_exist cfgs).
    { rewrite Forall_forall in Hall. apply Forall_forall. intros c Hc.
      destruct (Hall c Hc) as [[nm [_ Hget]] [_ [Hexist _]]].
      apply Hexist. exact (Hcols nm _ Hget). }
    destruct (render_loop_titles dataframes cfgs Hall Hex)
      as [figs [Hdraw Htitles]].
    pose proof (load_page files dataframes diag Hload) as Hdiag.
    exists n, cfgs. split; [exact Hn|]. split; [exact Hrange|].
    split; [exact Hrun|]. split; [exact Hlen|].
    rewrite Hmain. unfold drawing. rewrite Hclick, Hdraw. cbn [fst snd].
    split; [reflexivity|].
    rewrite !charts_app, Hdiag, charts_errors, charts_preview_of,
      charts_subheaders, charts_charts.
    cbn [page_head preview_head charts flat_map app].
    rewrite Htitles. apply map_ext_in. intros c Hc.
    now rewrite (Htitle ui (seq 0 n) cfgs _ c Hrun Hc).
Qed.
End Titles.

Lemma plot_title_is_derived_witness :
  load_dataframes (pd := sample_decoders) [a_csv; b_csv] =
    (Ok [("a.csv", sample_a); ("b.csv", sample_b)], []) /\
  fst (main (pd := sample_decoders) two_plots [a_csv; b_csv]) = Ok tt /\
  map (fun fig => title (fig_layout fig))
      (charts (snd (main (pd := sample_decoders) two_plots [a_csv; b_csv]))) =
    [Some "a.csv - v1 vs t"; Some "b.csv - v2 vs t"].
Proof.
  split; [reflexivity|].
  destruct (proj2 (proj2 (proj2 (proj2
              (plot_title_is_derived (pd := sample_decoders) two_plots
                 [a_csv; b_csv] [("a.csv", sample_a); ("b.csv", sample_b)] []
                 eq_refl))))
              ltac:(discriminate) eq_refl)
    as [n [cfgs [Hn [_ [Hrun [_ [Hok Htitles]]]]]]].
  { intros nm df H. apply dict_get_In in H.
    destruct H as [H|[H|[]]]; injection H as _ <-; discriminate. }
  split; [exact Hok|].
  vm_compute in Hn. injection Hn as <-.
  vm_compute in Hrun. injection Hrun as <-.
  rewrite Htitles. reflexivity.
Defined.
